(** * CaseforAI backend: the upload, query and listing handlers of [main.py]

    A shallow embedding of the request handlers of [src/main.py].  The
    external collaborators (document readers, the node parser, the vector
    index, the object store, the clock, the UUID source, the temporary-file
    layer) are fields of an environment record [Env]: each says what the
    collaborator returns, or which exception it raises.  The handlers are
    written in a state-and-exception monad over the stores they mutate
    (temporary files, vector index, archive).

    Calls to [logger] are left out: they return nothing, never raise and
    touch none of the modelled stores. *)

From Stdlib Require Import ZArith NArith Ascii Sorted.
From Stdlib Require String.
From stdpp Require Import base gmap strings list sorting.

Local Open Scope Z_scope.

(** ** Strings, as Python uses them in the handlers *)

(** Strings are byte strings; [lower] maps the ASCII capitals only.  (No
    non-ASCII character lowercases to one of the letters of the supported
    extensions, so membership in [readers] is not affected.) *)
Module PyStr.

Definition lower_ascii (c : ascii) : ascii :=
  let n := nat_of_ascii c in
  if ((65 <=? n) && (n <=? 90))%nat then ascii_of_nat (n + 32) else c.

(** [s.lower()] *)
Fixpoint lower (s : string) : string :=
  match s with
  | EmptyString => EmptyString
  | String c s' => String (lower_ascii c) (lower s')
  end.

(** [s.rfind(c)], with [None] for Python's [-1]. *)
Fixpoint rfind (c : ascii) (s : string) : option nat :=
  match s with
  | EmptyString => None
  | String a s' =>
      match rfind c s' with
      | Some i => Some (S i)
      | None => if Ascii.eqb a c then Some 0%nat else None
      end
  end.

(** [s.split(c)] *)
Fixpoint split (c : ascii) (s : string) : list string :=
  match s with
  | EmptyString => [EmptyString]
  | String a s' =>
      if Ascii.eqb a c then EmptyString :: split c s'
      else match split c s' with
           | h :: t => String a h :: t
           | [] => [String a EmptyString]
           end
  end.

(** [s[:n]] for [n >= 0] *)
Fixpoint take (n : nat) (s : string) : string :=
  match n, s with
  | S n', String a s' => String a (take n' s')
  | _, _ => EmptyString
  end.

(** [s[n:]] for [n >= 0] *)
Fixpoint drop (n : nat) (s : string) : string :=
  match n, s with
  | S n', String _ s' => drop n' s'
  | _, _ => s
  end.

(** [sep.join(l)] *)
Fixpoint join (sep : string) (l : list string) : string :=
  match l with
  | [] => EmptyString
  | [x] => x
  | x :: l' => x +:+ sep +:+ join sep l'
  end.

(** [repr(s)] for a string without quotes, backslashes or control
    characters (the keys of [readers] are such). *)
Definition repr (s : string) : string := "'" +:+ s +:+ "'".

(** [repr(l)] for a list of such strings. *)
Definition repr_list (l : list string) : string :=
  "[" +:+ join ", " (map repr l) +:+ "]".

(** The character of a digit [d < 16], lower case. *)
Definition digit_char (d : N) : ascii :=
  if (d <? 10)%N then ascii_of_N (48 + d) else ascii_of_N (87 + d).

(** The [n] low-order digits of [x] in base [b] ([b <= 16]), most
    significant first, in front of [acc]. *)
Fixpoint digits_go (b : N) (n : nat) (x : N) (acc : string) : string :=
  match n with
  | O => acc
  | S n' => digits_go b n' (x / b)%N (String (digit_char (x mod b)%N) acc)
  end.

(** The number of decimal digits of [x] (1 for 0). *)
Fixpoint ndigits_go (fuel : nat) (x : N) : nat :=
  match fuel with
  | O => 1%nat
  | S fuel' => if (x <? 10)%N then 1%nat else S (ndigits_go fuel' (x / 10)%N)
  end.

Definition ndigits (x : N) : nat := ndigits_go (N.size_nat x) x.

(** ["%0nd" % x]: decimal, zero-padded to width [n], never truncated. *)
Definition zpad (n : nat) (x : N) : string :=
  digits_go 10 (Nat.max n (ndigits x)) x EmptyString.

(** [str(x)] for a non-negative integer. *)
Definition of_N (x : N) : string := zpad 1 x.

(** ["%0nx" % x] for [x < 16^n]. *)
Definition hex (n : nat) (x : N) : string := digits_go 16 n x EmptyString.

End PyStr.

(** ** [pathlib.PurePosixPath]: [name] and [suffix] *)

Module Path.

(** The components of a path: split on the separator, dropping empty and
    ["."] components. *)
Definition parts (p : string) : list string :=
  filter (fun x => x ≠ EmptyString ∧ x ≠ ".") (PyStr.split "/"%char p).

(** [Path(p).name]: the last component, the empty string when there is
    none. *)
Definition name (p : string) : string := default EmptyString (last (parts p)).

(** [Path(p).suffix]:
    [i = name.rfind('.')]; [name[i:]] if [0 < i < len(name) - 1], else
    the empty string. *)
Definition suffix (p : string) : string :=
  let nm := name p in
  match PyStr.rfind "."%char nm with
  | Some i =>
      if ((0 <? i) && (i <? String.length nm - 1))%nat then PyStr.drop i nm
      else EmptyString
  | None => EmptyString
  end.

End Path.

(** ** Values exchanged with the collaborators *)

(** A JSON-serialisable Python value.  A float is carried by the bit
    pattern of its IEEE-754 double: the handlers only pass floats through. *)
#[warnings="-register-all"]
Inductive JValue :=
| JNull
| JInt (z : Z)
| JFloat (bits : Z)
| JStr (s : string)
| JDict (items : list (string * JValue)).

(** [datetime.datetime], naive (no time zone), as [datetime.now()] gives. *)
Record datetime := {
  year : N; month : N; day : N;
  hour : N; minute : N; second : N; microsecond : N
}.

(** [d.strftime("%Y/%m/%d")] (for years of four digits). *)
Definition strftime_Ymd (d : datetime) : string :=
  PyStr.zpad 4 (year d) +:+ "/" +:+ PyStr.zpad 2 (month d) +:+ "/" +:+
  PyStr.zpad 2 (day d).

(** [d.isoformat()]: [YYYY-MM-DDTHH:MM:SS], then [.ffffff] when the
    microsecond is not zero. *)
Definition isoformat (d : datetime) : string :=
  PyStr.zpad 4 (year d) +:+ "-" +:+ PyStr.zpad 2 (month d) +:+ "-" +:+
  PyStr.zpad 2 (day d) +:+ "T" +:+ PyStr.zpad 2 (hour d) +:+ ":" +:+
  PyStr.zpad 2 (minute d) +:+ ":" +:+ PyStr.zpad 2 (second d) +:+
  (if decide (microsecond d = 0%N) then EmptyString
   else "." +:+ PyStr.zpad 6 (microsecond d)).

(** [str(u)] for a [uuid.UUID] with 128-bit integer value [u]: 32 hex
    digits grouped 8-4-4-4-12. *)
Definition str_uuid (u : N) : string :=
  let h := PyStr.hex 32 u in
  PyStr.take 8 h +:+ "-" +:+ PyStr.take 4 (PyStr.drop 8 h) +:+ "-" +:+
  PyStr.take 4 (PyStr.drop 12 h) +:+ "-" +:+ PyStr.take 4 (PyStr.drop 16 h) +:+
  "-" +:+ PyStr.drop 20 h.

(** [fastapi.UploadFile] *)
Record UploadFile := {
  filename : string;
  content_type : option string;
  body : list Byte.byte
}.

(** [llama_index.core.Document]: text and a metadata dict. *)
Record Document := {
  doc_text : string;
  doc_metadata : gmap string JValue
}.

(** A node (chunk) as the node parser returns it and the index stores it. *)
Record Node := {
  node_id : string;
  node_text : string;
  node_metadata : gmap string JValue
}.

(** [NodeWithScore], as the retriever returns it; [score] is optional in
    the library.  The score type is left open. *)
Record NodeWithScore (Score : Type) := {
  nws_node : Node;
  nws_score : option Score
}.
Arguments nws_node {Score} _.
Arguments nws_score {Score} _.

(** The keyword arguments of [s3_client.put_object]. *)
Record S3Object := {
  Bucket : string;
  Key : string;
  Body : list Byte.byte;
  ContentType : string;
  Metadata : gmap string string
}.

(** The reader classes of [llama_index.readers.file] the service uses. *)
Inductive Reader := PDFReader | DocxReader | UnstructuredReader | MarkdownReader.

(** The [readers] dict, in insertion order. *)
Definition readers : list (string * Reader) :=
  [ (".pdf", PDFReader); (".docx", DocxReader); (".txt", UnstructuredReader);
    (".md", MarkdownReader); (".xlsx", UnstructuredReader) ].

(** [readers.keys()] *)
Definition readers_keys : list string := readers.*1.

(** [readers[k]]; [None] stands for [KeyError]. *)
Fixpoint readers_get (l : list (string * Reader)) (k : string) : option Reader :=
  match l with
  | [] => None
  | (k', r) :: l' => if decide (k' = k) then Some r else readers_get l' k
  end.

(** ** Exceptions and outcomes *)

Inductive Exn :=
| HTTPException (status_code : Z) (detail : string)
| RequestValidationError (param : string)
| PyError (msg : string).

(** [str(e)].  Starlette's [HTTPException.__str__] gives
    ["{status_code}: {detail}"]. *)
Definition str_exn (e : Exn) : string :=
  match e with
  | HTTPException sc d => PyStr.of_N (Z.to_N sc) +:+ ": " +:+ d
  | RequestValidationError p => p
  | PyError m => m
  end.

Inductive Outcome (A : Type) :=
| Ok (a : A)
| Raise (e : Exn).
Arguments Ok {A} _.
Arguments Raise {A} _.

(** The status code the framework answers with: the response's own code,
    the code of an [HTTPException], 422 for a request that fails parameter
    validation, 500 for any other exception. *)
Definition http_status {A : Type} (status_of : A → Z) (o : Outcome A) : Z :=
  match o with
  | Ok r => status_of r
  | Raise (HTTPException sc _) => sc
  | Raise (RequestValidationError _) => 422
  | Raise (PyError _) => 500
  end.

(** ** The stores and the monad *)

(** A call to a collaborator, as recorded in the request trace. *)
Inductive Call :=
| CallMkstemp (sfx : string)
| CallFileRead
| CallTmpWrite (p : string)
| CallLoadData (r : Reader) (p : string)
| CallGetNodes (docs : list Document)
| CallInsertNodes (nodes : list Node)
| CallDescribeStats
| CallPutObject (o : S3Object)
| CallUnlink (p : string)
| CallRetrieve (q : string) (k : Z).

(** The stores the handlers act on.  [calls] is the trace of collaborator
    calls, oldest first, each with [true] when it returned and [false] when
    it raised; the handlers never read it. *)
Record World := {
  clock : nat;                          (* readings of [datetime.now()] so far *)
  rng : nat;                            (* [uuid.uuid4()] draws so far *)
  tmpfs : gmap string (list Byte.byte); (* temporary files, by path *)
  vindex : list Node;                   (* the vector index *)
  archive : list S3Object;              (* the archive bucket *)
  calls : list (Call * bool)
}.

Definition tick (n : nat) (w : World) : World :=
  {| clock := (n + clock w)%nat; rng := rng w; tmpfs := tmpfs w;
     vindex := vindex w; archive := archive w; calls := calls w |}.

Definition draw (w : World) : World :=
  {| clock := clock w; rng := S (rng w); tmpfs := tmpfs w;
     vindex := vindex w; archive := archive w; calls := calls w |}.

Definition set_tmpfs (fs : gmap string (list Byte.byte)) (w : World) : World :=
  {| clock := clock w; rng := rng w; tmpfs := fs;
     vindex := vindex w; archive := archive w; calls := calls w |}.

Definition set_vindex (ix : list Node) (w : World) : World :=
  {| clock := clock w; rng := rng w; tmpfs := tmpfs w;
     vindex := ix; archive := archive w; calls := calls w |}.

Definition set_archive (a : list S3Object) (w : World) : World :=
  {| clock := clock w; rng := rng w; tmpfs := tmpfs w;
     vindex := vindex w; archive := a; calls := calls w |}.

Definition log (c : Call) (returned : bool) (w : World) : World :=
  {| clock := clock w; rng := rng w; tmpfs := tmpfs w;
     vindex := vindex w; archive := archive w;
     calls := calls w ++ [(c, returned)] |}.

Definition M (A : Type) : Type := World → Outcome A * World.

Definition ret {A : Type} (a : A) : M A := fun w => (Ok a, w).

Definition raise {A : Type} (e : Exn) : M A := fun w => (Raise e, w).

Definition bind {A B : Type} (m : M A) (k : A → M B) : M B :=
  fun w =>
    match m w with
    | (Ok a, w') => k a w'
    | (Raise e, w') => (Raise e, w')
    end.

(** [try: m  except Exception as e: h e] *)
Definition try_except {A : Type} (m : M A) (h : Exn → M A) : M A :=
  fun w =>
    match m w with
    | (Ok a, w') => (Ok a, w')
    | (Raise e, w') => h e w'
    end.

(** [try: m  finally: fin] *)
Definition try_finally {A : Type} (m : M A) (fin : M unit) : M A :=
  fun w =>
    match m w with
    | (r, w') =>
        match fin w' with
        | (Ok _, w'') => (r, w'')
        | (Raise e, w'') => (Raise e, w'')
        end
    end.

(** stdpp's monad notations: [x ← m; k] and [m;; k]. *)
#[global] Instance M_ret : MRet M := @ret.
#[global] Instance M_bind : MBind M := fun A B k m => bind m k.

(** [for x in l: ...], collecting the results. *)
Fixpoint mapM {A B : Type} (f : A → M B) (l : list A) : M (list B) :=
  match l with
  | [] => ret []
  | x :: l' => y ← f x; ys ← mapM f l'; ret (y :: ys)
  end.

(** ** The collaborators *)

(** What the world outside the handlers does.  A field of type
    [option Exn] or [Outcome _] says whether the call raises. *)
Record Env := {
  (** [datetime.now()], by the number of earlier readings *)
  now_at : nat → datetime;
  (** the integer value of [uuid.uuid4()], by the number of earlier draws *)
  uuid4_at : nat → N;
  (** [os.getenv("AWS_S3_BUCKET_NAME")] *)
  AWS_S3_BUCKET_NAME : option string;
  (** the path [NamedTemporaryFile(delete=False, suffix=...)] creates *)
  mkstemp : string → gmap string (list Byte.byte) → Outcome string;
  (** [await file.read()] raising *)
  read_fault : UploadFile → option Exn;
  (** [tmp_file.write(content)] raising *)
  write_fault : string → list Byte.byte → option Exn;
  (** [reader.load_data(file=path)] *)
  load_data :
    Reader → string → gmap string (list Byte.byte) → Outcome (list Document);
  (** [node_parser.get_nodes_from_documents(documents)], with
      [node_parser = SentenceSplitter(chunk_size=1024, chunk_overlap=200)] *)
  get_nodes_from_documents : nat → nat → list Document → Outcome (list Node);
  (** [index.insert_nodes(nodes)] raising, after how many nodes were stored *)
  insert_fault : list Node → list Node → option (nat * Exn);
  (** [pinecone_index.describe_index_stats()] *)
  describe_index_stats : list Node → Outcome (gmap string JValue);
  (** [s3_client.put_object(...)] raising *)
  put_object_fault : S3Object → list S3Object → option Exn
}.

(** The retriever of [index.as_retriever(similarity_top_k=k)]:
    [retrieve idx k q] is [retriever.retrieve(q)]. *)
Definition Retriever (Score : Type) : Type :=
  list Node → Z → string → Outcome (list (NodeWithScore Score)).

(** ** Responses *)

(** The [response_content] dict of [upload_file].  [s3_url = None] is the
    JSON [null]; [warning] and [s3_error] are [None] when the key is absent. *)
Record UploadResponse := {
  message : string;
  up_filename : string;
  documents_processed : nat;
  chunks_created : nat;
  file_type : string;
  s3_url : option string;
  warning : option string;
  s3_error : option string
}.

(** [JSONResponse(status_code=..., content=...)] *)
Record JSONResponse := {
  status_code : Z;
  content : UploadResponse
}.

(** One entry of the [results] list of [query_documents]. *)
Record QueryResult (Score : Type) := {
  qr_id : string;
  qr_text : string;
  qr_score : option Score;
  qr_metadata : gmap string JValue
}.
Arguments qr_id {Score} _.
Arguments qr_text {Score} _.
Arguments qr_score {Score} _.
Arguments qr_metadata {Score} _.

(** The dict [query_documents] returns. *)
Record QueryResponse (Score : Type) := {
  query : string;
  results : list (QueryResult Score);
  total_results : nat
}.
Arguments query {Score} _.
Arguments results {Score} _.
Arguments total_results {Score} _.

(** The dict [list_chunks] returns. *)
Record ChunksResponse := {
  total_vectors : JValue;
  index_fullness : JValue;
  namespaces : JValue;
  note : string
}.

(** ** Request parameters *)

(** [Query(default, ge=lo, le=hi)] on an [int] parameter: the default when
    the parameter is absent; a value outside [lo..hi] fails validation. *)
Definition Query_int (param : string) (dflt lo hi : Z) (raw : option Z)
  : Outcome Z :=
  match raw with
  | None => Ok dflt
  | Some v =>
      if (lo <=? v) && (v <=? hi) then Ok v
      else Raise (RequestValidationError param)
  end.

(** [Query(...)] on a [str] parameter: required. *)
Definition Query_required (param : string) (raw : option string)
  : Outcome string :=
  match raw with
  | None => Raise (RequestValidationError param)
  | Some v => Ok v
  end.

(** ** The handlers *)

(** [node_parser = SentenceSplitter(chunk_size=1024, chunk_overlap=200)] *)
Definition chunk_size : nat := 1024.
Definition chunk_overlap : nat := 200.

Section Handlers.

Context (env : Env).

(** [S3_BUCKET_NAME = os.getenv("AWS_S3_BUCKET_NAME", "caseforai-bucket")] *)
Definition S3_BUCKET_NAME : string :=
  default "caseforai-bucket" (AWS_S3_BUCKET_NAME env).

(** [datetime.now()] *)
Definition datetime_now : M datetime :=
  fun w => (Ok (now_at env (clock w)), tick 1 w).

(** [uuid.uuid4()] *)
Definition uuid4 : M N :=
  fun w => (Ok (uuid4_at env (rng w)), draw w).

(** Entering [with tempfile.NamedTemporaryFile(delete=False, suffix=sfx)]:
    an empty file is created; its path is [tmp_file.name]. *)
Definition NamedTemporaryFile (sfx : string) : M string :=
  fun w =>
    match mkstemp env sfx (tmpfs w) with
    | Ok p =>
        (Ok p, log (CallMkstemp sfx) true (set_tmpfs (<[p := []]> (tmpfs w)) w))
    | Raise e => (Raise e, log (CallMkstemp sfx) false w)
    end.

(** [await file.read()] *)
Definition file_read (file : UploadFile) : M (list Byte.byte) :=
  fun w =>
    match read_fault env file with
    | Some e => (Raise e, log CallFileRead false w)
    | None => (Ok (body file), log CallFileRead true w)
    end.

(** [tmp_file.write(content)] *)
Definition tmp_write (p : string) (data : list Byte.byte) : M unit :=
  fun w =>
    match write_fault env p data with
    | Some e => (Raise e, log (CallTmpWrite p) false w)
    | None =>
        (Ok (), log (CallTmpWrite p) true
                  (set_tmpfs (<[p := data]> (tmpfs w)) w))
    end.

(** [os.unlink(p)] *)
Definition os_unlink (p : string) : M unit :=
  fun w =>
    match tmpfs w !! p with
    | Some _ =>
        (Ok (), log (CallUnlink p) true (set_tmpfs (delete p (tmpfs w)) w))
    | None =>
        (Raise (PyError "[Errno 2] No such file or directory"),
         log (CallUnlink p) false w)
    end.

(** [reader.load_data(file=p)] *)
Definition reader_load_data (r : Reader) (p : string) : M (list Document) :=
  fun w =>
    match load_data env r p (tmpfs w) with
    | Ok docs => (Ok docs, log (CallLoadData r p) true w)
    | Raise e => (Raise e, log (CallLoadData r p) false w)
    end.

(** [node_parser.get_nodes_from_documents(documents)] *)
Definition node_parser_get_nodes (docs : list Document) : M (list Node) :=
  fun w =>
    match get_nodes_from_documents env chunk_size chunk_overlap docs with
    | Ok nodes => (Ok nodes, log (CallGetNodes docs) true w)
    | Raise e => (Raise e, log (CallGetNodes docs) false w)
    end.

(** [index.insert_nodes(nodes)] *)
Definition insert_nodes (nodes : list Node) : M unit :=
  fun w =>
    match insert_fault env (vindex w) nodes with
    | Some (k, e) =>
        (Raise e, log (CallInsertNodes nodes) false
                    (set_vindex (vindex w ++ take k nodes) w))
    | None =>
        (Ok (), log (CallInsertNodes nodes) true
                  (set_vindex (vindex w ++ nodes) w))
    end.

(** [pinecone_index.describe_index_stats()] *)
Definition index_stats : M (gmap string JValue) :=
  fun w =>
    match describe_index_stats env (vindex w) with
    | Ok st => (Ok st, log CallDescribeStats true w)
    | Raise e => (Raise e, log CallDescribeStats false w)
    end.

(** [s3_client.put_object(Bucket=..., Key=..., ...)] *)
Definition put_object (o : S3Object) : M unit :=
  fun w =>
    match put_object_fault env o (archive w) with
    | Some e => (Raise e, log (CallPutObject o) false w)
    | None =>
        (Ok (), log (CallPutObject o) true (set_archive (archive w ++ [o]) w))
    end.

(** The key [upload_file_to_s3] builds from the date string, the UUID and
    the file name. *)
Definition s3_key_of (timestamp unique_id fname : string) : string :=
  "documents/" +:+ timestamp +:+ "/" +:+ unique_id +:+ "_" +:+ fname.

Definition s3_url_of (s3_key : string) : string :=
  "https://" +:+ S3_BUCKET_NAME +:+ ".s3.amazonaws.com/" +:+ s3_key.

(** [upload_file_to_s3(file_content, filename, content_type)] *)
Definition upload_file_to_s3
    (file_content : list Byte.byte) (fname ctype : string) : M string :=
  try_except
    (d ← datetime_now;
     let timestamp := strftime_Ymd d in
     u ← uuid4;
     let unique_id := PyStr.take 8 (str_uuid u) in
     let s3_key := s3_key_of timestamp unique_id fname in
     d' ← datetime_now;
     put_object
       {| Bucket := S3_BUCKET_NAME; Key := s3_key; Body := file_content;
          ContentType := ctype;
          Metadata := <["upload_timestamp" := isoformat d']>
                        (<["original_filename" := fname]> ∅) |};;
     ret (s3_url_of s3_key))
    (fun e => raise e).

(** The body of [for doc in documents:] in [upload_file]. *)
Definition add_metadata (fname file_extension : string) (doc : Document)
  : M Document :=
  d ← datetime_now;
  ret {| doc_text := doc_text doc;
         doc_metadata :=
           <["upload_timestamp" := JStr (isoformat d)]>
             (<["file_type" := JStr file_extension]>
                (<["filename" := JStr fname]> (doc_metadata doc))) |}.

(** [x or "application/octet-stream"] *)
Definition content_type_or_default (file : UploadFile) : string :=
  match content_type file with
  | Some c => if decide (c = EmptyString) then "application/octet-stream" else c
  | None => "application/octet-stream"
  end.

(** The inner [try] block of [upload_file], from the reader lookup to the
    [return]. *)
Definition process_file
    (file : UploadFile) (file_extension : string)
    (data : list Byte.byte) (tmp_file_path : string) : M JSONResponse :=
  reader ← match readers_get readers file_extension with
           | Some r => ret r
           | None => raise (PyError (PyStr.repr file_extension))
           end;
  documents ← reader_load_data reader tmp_file_path;
  documents ← mapM (add_metadata (filename file) file_extension) documents;
  nodes ← node_parser_get_nodes documents;
  insert_nodes nodes;;
  index_stats;;
  '(url, err) ← try_except
                  (u ← upload_file_to_s3 data (filename file)
                         (content_type_or_default file);
                   ret (Some u, None))
                  (fun s3_e => ret (None, Some (str_exn s3_e)));
  let response_content :=
    {| message := "File uploaded and processed successfully";
       up_filename := filename file;
       documents_processed := length documents;
       chunks_created := length nodes;
       file_type := file_extension;
       s3_url := url;
       warning :=
         match err with
         | Some s =>
             if decide (s = EmptyString) then None
             else Some ("Document processed successfully but S3 upload failed: "
                        +:+ s)
         | None => None
         end;
       s3_error :=
         match err with
         | Some s => if decide (s = EmptyString) then None else Some s
         | None => None
         end |} in
  ret {| status_code := 200; content := response_content |}.

(** [upload_file(file)], the handler of [POST /upload] *)
Definition upload_file (file : UploadFile) : M JSONResponse :=
  try_except
    (let file_extension := PyStr.lower (Path.suffix (filename file)) in
     (if decide (file_extension ∈ readers_keys) then ret ()
      else raise (HTTPException 400
                    ("Unsupported file type. Supported: "
                     +:+ PyStr.repr_list readers_keys)));;
     '(data, tmp_file_path) ←
       (p ← NamedTemporaryFile file_extension;
        data ← file_read file;
        tmp_write p data;;
        ret (data, p));
     try_finally
       (process_file file file_extension data tmp_file_path)
       (os_unlink tmp_file_path))
    (fun e => raise (HTTPException 500
                       ("Error processing file: " +:+ str_exn e))).

(** [list_chunks(limit)], the handler of [GET /chunks] *)
Definition list_chunks (limit : Z) : M ChunksResponse :=
  try_except
    (stats ← index_stats;
     ret {| total_vectors := default (JInt 0) (stats !! "total_vector_count");
            index_fullness := default (JInt 0) (stats !! "index_fullness");
            namespaces := default (JDict []) (stats !! "namespaces");
            note := "Use /query endpoint to search specific chunks" |})
    (fun e => raise (HTTPException 500
                       ("Error listing chunks: " +:+ str_exn e))).

(** [GET /chunks?limit=...]: parameter validation, then the handler. *)
Definition get_chunks (limit : option Z) : M ChunksResponse :=
  match Query_int "limit" 100 1 1000 limit with
  | Ok l => list_chunks l
  | Raise e => raise e
  end.

Section Query.

Context {Score : Type} (retrieve : Retriever Score).

(** The dict built for one retrieved node. *)
Definition result_of (n : NodeWithScore Score) : QueryResult Score :=
  {| qr_id := node_id (nws_node n);
     qr_text := node_text (nws_node n);
     qr_score := nws_score n;
     qr_metadata := node_metadata (nws_node n) |}.

(** [index.as_retriever(similarity_top_k=k).retrieve(q)] *)
Definition retriever_retrieve (k : Z) (q : string)
  : M (list (NodeWithScore Score)) :=
  fun w =>
    match retrieve (vindex w) k q with
    | Ok nodes => (Ok nodes, log (CallRetrieve q k) true w)
    | Raise e => (Raise e, log (CallRetrieve q k) false w)
    end.

(** [query_documents(q, limit)], the handler of [GET /query] *)
Definition query_documents (q : string) (limit : Z)
  : M (QueryResponse Score) :=
  try_except
    (nodes ← retriever_retrieve limit q;
     let results := map result_of nodes in
     ret {| query := q; results := results;
            total_results := length results |})
    (fun e => raise (HTTPException 500
                       ("Error querying documents: " +:+ str_exn e))).

(** [GET /query?q=...&limit=...]: parameter validation, then the
    handler. *)
Definition get_query (q : option string) (limit : option Z)
  : M (QueryResponse Score) :=
  match Query_required "q" q with
  | Ok q' =>
      match Query_int "limit" 10 1 50 limit with
      | Ok l => query_documents q' l
      | Raise e => raise e
      end
  | Raise e => raise e
  end.

End Query.

End Handlers.

(** ** Properties the theorems are stated with *)

(** The documents after the metadata loop of [upload_file], when the loop
    starts at clock reading [c]: one reading of [datetime.now()] per
    document. *)
Fixpoint stamped (env : Env) (fname file_extension : string) (c : nat)
    (docs : list Document) : list Document :=
  match docs with
  | [] => []
  | d :: ds =>
      {| doc_text := doc_text d;
         doc_metadata :=
           <["upload_timestamp" := JStr (isoformat (now_at env c))]>
             (<["file_type" := JStr file_extension]>
                (<["filename" := JStr fname]> (doc_metadata d))) |}
      :: stamped env fname file_extension (S c) ds
  end.

(** The collaborator contract of the node parser that the metadata
    invariant rests on: every node carries the metadata of one of the
    documents it was given, unchanged. *)
Definition parser_inherits_metadata (env : Env) : Prop :=
  ∀ docs nodes,
    get_nodes_from_documents env chunk_size chunk_overlap docs = Ok nodes →
    ∀ n, n ∈ nodes → ∃ d, d ∈ docs ∧ node_metadata n = doc_metadata d.

(** A metadata dict from which the upload can be traced: file name, file
    type, and a timestamp read from the clock between readings [c0] and
    [c1]. *)
Definition traceable (env : Env) (file : UploadFile) (c0 c1 : nat)
    (md : gmap string JValue) : Prop :=
  md !! "filename" = Some (JStr (filename file)) ∧
  md !! "file_type" = Some (JStr (PyStr.lower (Path.suffix (filename file)))) ∧
  ∃ t, (c0 ≤ t < c1)%nat ∧
       md !! "upload_timestamp" = Some (JStr (isoformat (now_at env t))).

(** The collaborator contract of the retriever: for a positive [k], at
    most [k] nodes, in the order [ge] on scores. *)
Definition retriever_top_k {Score : Type}
    (ge : option Score → option Score → Prop) (retrieve : Retriever Score)
  : Prop :=
  ∀ idx k q nodes,
    1 ≤ k →
    retrieve idx k q = Ok nodes →
    (Z.of_nat (length nodes) ≤ k) ∧
    StronglySorted (fun a b => ge (nws_score a) (nws_score b)) nodes.

(** Clamping into [lo..hi]. *)
Definition clamp (lo hi x : Z) : Z := Z.max lo (Z.min hi x).

(** [GET /query] read as clamping its bound: the request with bound [limit]
    is answered as the handler answers the clamped bound. *)
Definition query_clamps_limit {Score : Type}
    (retrieve : Retriever Score) (q : string) (limit : Z) (w : World) : Prop :=
  get_query retrieve (Some q) (Some limit) w
  = query_documents retrieve q (clamp 1 50 limit) w.

(** Dates as [datetime] allows them, with a year of four digits. *)
Definition four_digit_date (d : datetime) : Prop :=
  (1000 ≤ year d ≤ 9999 ∧ 1 ≤ month d ≤ 12 ∧ 1 ≤ day d ≤ 31)%N.

(** ** Concrete requests and collaborators *)

Definition world0 : World :=
  {| clock := 0; rng := 0; tmpfs := ∅; vindex := []; archive := []; calls := [] |}.

Definition exe_file : UploadFile :=
  {| filename := "malware.exe"; content_type := Some "application/octet-stream";
     body := [] |}.

Definition txt_file : UploadFile :=
  {| filename := "hello.txt"; content_type := Some "text/plain";
     body := String.list_byte_of_string "hello world" |}.

Definition report_file : UploadFile :=
  {| filename := "REPORT.PDF"; content_type := None;
     body := String.list_byte_of_string "%PDF-1.7" |}.

(** Collaborators that all answer: the clock advances a second per reading,
    a reader yields one document holding the file's bytes as text, the
    parser yields one node per document. *)
Definition env_ok : Env :=
  {| now_at := fun n =>
       {| year := 2025; month := 3; day := 7; hour := 9; minute := 5;
          second := N.of_nat n; microsecond := 0 |};
     uuid4_at := fun n => (0x3f2b8c1e9d4a4f6b8a7c5e1d2f3a4b5c + N.of_nat n)%N;
     AWS_S3_BUCKET_NAME := None;
     mkstemp := fun sfx _ => Ok ("/tmp/tmpk3x9" +:+ sfx);
     read_fault := fun _ => None;
     write_fault := fun _ _ => None;
     load_data := fun _ p fs =>
       match fs !! p with
       | Some data =>
           Ok [ {| doc_text := String.string_of_list_byte data;
                   doc_metadata := ∅ |} ]
       | None => Raise (PyError "[Errno 2] No such file or directory")
       end;
     get_nodes_from_documents := fun _ _ docs =>
       Ok (map (fun d => {| node_id := "node-0"; node_text := doc_text d;
                            node_metadata := doc_metadata d |}) docs);
     insert_fault := fun _ _ => None;
     describe_index_stats := fun ix =>
       Ok (<["total_vector_count" := JInt (Z.of_nat (length ix))]> ∅);
     put_object_fault := fun _ _ => None |}.

(** As [env_ok], but the vector index refuses the insertion. *)
Definition env_index_down : Env :=
  {| now_at := now_at env_ok; uuid4_at := uuid4_at env_ok;
     AWS_S3_BUCKET_NAME := AWS_S3_BUCKET_NAME env_ok;
     mkstemp := mkstemp env_ok; read_fault := read_fault env_ok;
     write_fault := write_fault env_ok; load_data := load_data env_ok;
     get_nodes_from_documents := get_nodes_from_documents env_ok;
     insert_fault := fun _ _ => Some (0%nat, PyError "index unavailable");
     describe_index_stats := describe_index_stats env_ok;
     put_object_fault := put_object_fault env_ok |}.

(** As [env_ok], but [put_object] raises an exception with message [msg]. *)
Definition env_archive_down (msg : string) : Env :=
  {| now_at := now_at env_ok; uuid4_at := uuid4_at env_ok;
     AWS_S3_BUCKET_NAME := AWS_S3_BUCKET_NAME env_ok;
     mkstemp := mkstemp env_ok; read_fault := read_fault env_ok;
     write_fault := write_fault env_ok; load_data := load_data env_ok;
     get_nodes_from_documents := get_nodes_from_documents env_ok;
     insert_fault := insert_fault env_ok;
     describe_index_stats := describe_index_stats env_ok;
     put_object_fault := fun _ _ => Some (PyError msg) |}.

(** As [env_ok], but writing the temporary file raises. *)
Definition env_disk_full : Env :=
  {| now_at := now_at env_ok; uuid4_at := uuid4_at env_ok;
     AWS_S3_BUCKET_NAME := AWS_S3_BUCKET_NAME env_ok;
     mkstemp := mkstemp env_ok; read_fault := read_fault env_ok;
     write_fault := fun _ _ =>
       Some (PyError "[Errno 28] No space left on device");
     load_data := load_data env_ok;
     get_nodes_from_documents := get_nodes_from_documents env_ok;
     insert_fault := insert_fault env_ok;
     describe_index_stats := describe_index_stats env_ok;
     put_object_fault := put_object_fault env_ok |}.

(** A retriever over integer scores: the first [k] nodes of the index,
    scored 100, 99, ... in that order. *)
Fixpoint scored (s : Z) (l : list Node) : list (NodeWithScore Z) :=
  match l with
  | [] => []
  | n :: l' => {| nws_node := n; nws_score := Some s |} :: scored (s - 1) l'
  end.

Definition retrieve_first : Retriever Z :=
  fun idx k _ => Ok (scored 100 (take (Z.to_nat k) idx)).

(** Descending order on optional integer scores. *)
Definition score_ge (a b : option Z) : Prop :=
  match a, b with
  | Some x, Some y => y ≤ x
  | _, _ => False
  end.

Definition hello_node : Node :=
  {| node_id := "node-0"; node_text := "hello world";
     node_metadata := <["filename" := JStr "hello.txt"]> ∅ |}.

Definition world1 : World :=
  {| clock := 3; rng := 1; tmpfs := ∅; vindex := [hello_node]; archive := [];
     calls := [] |}.

(** ** Start-up checks and the statistics handler *)

(** [required_env_vars] *)
Definition required_env_vars : list string :=
  [ "PINECONE_API_KEY"; "GOOGLE_API_KEY"; "AWS_ACCESS_KEY_ID";
    "AWS_SECRET_ACCESS_KEY" ].

(** The loop [for var in vars: if not os.getenv(var): raise ValueError(...)]
    over the process environment [environ]: an unset variable and one set
    to the empty string both count as missing. *)
Fixpoint check_env_vars (environ : gmap string string) (vars : list string)
  : Outcome unit :=
  match vars with
  | [] => Ok ()
  | var :: vars' =>
      match environ !! var with
      | Some v =>
          if decide (v = EmptyString)
          then Raise (PyError ("Missing required environment variable: " +:+ var))
          else check_env_vars environ vars'
      | None =>
          Raise (PyError ("Missing required environment variable: " +:+ var))
      end
  end.

(** The validation of the environment at import time. *)
Definition validate_environment (environ : gmap string string) : Outcome unit :=
  check_env_vars environ required_env_vars.



(** [bool(v)] *)
Definition truthy (v : JValue) : bool :=
  match v with
  | JNull => false
  | JInt z => negb (z =? 0)
  | JFloat bits => negb ((bits =? 0) || (bits =? 0x8000000000000000))
  | JStr s => match s with EmptyString => false | String _ _ => true end
  | JDict items => match items with [] => false | _ :: _ => true end
  end.

(** [d.get(k)] on the items of a dict. *)
Fixpoint dict_get (items : list (string * JValue)) (k : string) : option JValue :=
  match items with
  | [] => None
  | (k', v) :: items' => if decide (k' = k) then Some v else dict_get items' k
  end.

(** [d[k] = v] on the items of a dict: an existing key keeps its place. *)
Fixpoint dict_set (k : string) (v : JValue) (items : list (string * JValue))
  : list (string * JValue) :=
  match items with
  | [] => [(k, v)]
  | (k', v') :: items' =>
      if decide (k' = k) then (k, v) :: items' else (k', v') :: dict_set k v items'
  end.

(** The name of the Python type of a value, as error messages print it. *)
Definition type_name (v : JValue) : string :=
  match v with
  | JNull => "NoneType"
  | JInt _ => "int"
  | JFloat _ => "float"
  | JStr _ => "str"
  | JDict _ => "dict"
  end.

(** [ns_stats.get("vector_count", 0) if hasattr(ns_stats, "get")
     else getattr(ns_stats, "vector_count", 0)] *)
Definition ns_vector_count (ns_stats : JValue) : JValue :=
  match ns_stats with
  | JDict items => default (JInt 0) (dict_get items "vector_count")
  | _ => JInt 0
  end.

(** The loop [for ns, ns_stats in stats.namespaces.items(): ...], filling
    the dict [acc]. *)
Definition serialize_namespaces (items acc : list (string * JValue))
  : list (string * JValue) :=
  fold_left
    (fun acc '(ns, ns_stats) =>
       dict_set ns (JDict [("vector_count", ns_vector_count ns_stats)]) acc)
    items acc.

(** The [serializable_stats] dict of [get_index_stats]; [ss_namespaces] is
    [None] when the key is absent. *)
Record SerializableStats := {
  total_vector_count : JValue;
  ss_index_fullness : JValue;
  dimension : JValue;
  ss_namespaces : option (list (string * JValue))
}.

(** The dict [get_index_stats] returns. *)
Record StatsResponse := {
  index_name : string;
  stats : SerializableStats
}.

Section Stats.

Context (env : Env).

(** [get_index_stats()], the handler of [GET /stats].  The statistics
    object gives its fields as keys ([stats.get]) and as attributes
    ([stats.namespaces]) alike. *)
Definition get_index_stats : M StatsResponse :=
  try_except
    (st ← index_stats env;
     let base :=
       {| total_vector_count := default (JInt 0) (st !! "total_vector_count");
          ss_index_fullness := default (JFloat 0) (st !! "index_fullness");
          dimension := default (JInt 0) (st !! "dimension");
          ss_namespaces := None |} in
     serializable_stats ←
       match st !! "namespaces" with
       | Some nss =>
           if truthy nss then
             match nss with
             | JDict items =>
                 ret {| total_vector_count := total_vector_count base;
                        ss_index_fullness := ss_index_fullness base;
                        dimension := dimension base;
                        ss_namespaces := Some (serialize_namespaces items []) |}
             | _ =>
                 raise (PyError ("'" +:+ type_name nss
                                 +:+ "' object has no attribute 'items'"))
             end
           else ret base
       | None => ret base
       end;
     ret {| index_name := "caseforai-embeddings";
            stats := serializable_stats |})
    (fun e => raise (HTTPException 500
                       ("Error getting stats: " +:+ str_exn e))).

End Stats.

(** The stores a read-only handler must leave alone: everything but the
    trace of calls. *)
Definition same_stores (w w' : World) : Prop :=
  clock w' = clock w ∧ rng w' = rng w ∧ tmpfs w' = tmpfs w
  ∧ vindex w' = vindex w ∧ archive w' = archive w.


(** A process environment with the four required variables. *)
Definition environ_ok : gmap string string :=
  <["PINECONE_API_KEY" := "pc-key"]>
    (<["GOOGLE_API_KEY" := "g-key"]>
       (<["AWS_ACCESS_KEY_ID" := "AKIA"]>
          (<["AWS_SECRET_ACCESS_KEY" := "secret"]> ∅))).

(** As [env_ok], but the reader raises. *)
Definition env_reader_fails : Env :=
  {| now_at := now_at env_ok; uuid4_at := uuid4_at env_ok;
     AWS_S3_BUCKET_NAME := AWS_S3_BUCKET_NAME env_ok;
     mkstemp := mkstemp env_ok; read_fault := read_fault env_ok;
     write_fault := write_fault env_ok;
     load_data := fun _ _ _ => Raise (PyError "cannot parse document");
     get_nodes_from_documents := get_nodes_from_documents env_ok;
     insert_fault := insert_fault env_ok;
     describe_index_stats := describe_index_stats env_ok;
     put_object_fault := put_object_fault env_ok |}.

(** As [env_ok], but the index statistics cannot be read. *)
Definition env_stats_down : Env :=
  {| now_at := now_at env_ok; uuid4_at := uuid4_at env_ok;
     AWS_S3_BUCKET_NAME := AWS_S3_BUCKET_NAME env_ok;
     mkstemp := mkstemp env_ok; read_fault := read_fault env_ok;
     write_fault := write_fault env_ok; load_data := load_data env_ok;
     get_nodes_from_documents := get_nodes_from_documents env_ok;
     insert_fault := insert_fault env_ok;
     describe_index_stats := fun _ => Raise (PyError "stats unavailable");
     put_object_fault := put_object_fault env_ok |}.

(** As [env_ok], with statistics that list two namespaces. *)
Definition env_namespaces : Env :=
  {| now_at := now_at env_ok; uuid4_at := uuid4_at env_ok;
     AWS_S3_BUCKET_NAME := AWS_S3_BUCKET_NAME env_ok;
     mkstemp := mkstemp env_ok; read_fault := read_fault env_ok;
     write_fault := write_fault env_ok; load_data := load_data env_ok;
     get_nodes_from_documents := get_nodes_from_documents env_ok;
     insert_fault := insert_fault env_ok;
     describe_index_stats := fun _ =>
       Ok (<["namespaces" :=
               JDict [ ("cases", JDict [("vector_count", JInt 7)]);
                       ("drafts", JDict []) ]]>
             (<["dimension" := JInt 768]> ∅));
     put_object_fault := put_object_fault env_ok |}.

(** A process environment where one required variable is set to the empty
    string. *)
Definition environ_empty_key : gmap string string :=
  <["GOOGLE_API_KEY" := EmptyString]> environ_ok.

(** * Theorems *)

(** ** Worked examples *)

Example suffix_plain : Path.suffix "report.pdf" = ".pdf".
Proof. reflexivity. Qed.

Example suffix_upper : PyStr.lower (Path.suffix "REPORT.PDF") = ".pdf".
Proof. reflexivity. Qed.

Example suffix_last_component : Path.suffix "a.b/notes.tar.gz" = ".gz".
Proof. reflexivity. Qed.

Example suffix_hidden_file : Path.suffix ".bashrc" = EmptyString.
Proof. reflexivity. Qed.

Example suffix_trailing_dot : Path.suffix "notes." = EmptyString.
Proof. reflexivity. Qed.

Example zpad_month : PyStr.zpad 2 7 = "07".
Proof. reflexivity. Qed.

Example zpad_never_truncates : PyStr.zpad 2 123 = "123".
Proof. reflexivity. Qed.

Example hex_word : PyStr.hex 8 3735928559 = "deadbeef".
Proof. reflexivity. Qed.

Example str_uuid_shape :
  str_uuid 0x3f2b8c1e9d4a4f6b8a7c5e1d2f3a4b5c
  = "3f2b8c1e-9d4a-4f6b-8a7c-5e1d2f3a4b5c".
Proof. reflexivity. Qed.

Example isoformat_whole_second :
  isoformat {| year := 2025; month := 3; day := 7; hour := 9; minute := 5;
               second := 2; microsecond := 0 |}
  = "2025-03-07T09:05:02".
Proof. reflexivity. Qed.

Example isoformat_microsecond :
  isoformat {| year := 2025; month := 3; day := 7; hour := 9; minute := 5;
               second := 2; microsecond := 4210 |}
  = "2025-03-07T09:05:02.004210".
Proof. reflexivity. Qed.

Example limit_default : Query_int "limit" 10 1 50 None = Ok 10.
Proof. reflexivity. Qed.

Example limit_too_large :
  Query_int "limit" 10 1 50 (Some 51) = Raise (RequestValidationError "limit").
Proof. reflexivity. Qed.

(** The scenario of a plain-text upload shorter than a chunk, with
    collaborators that all answer: one document, one chunk, type [.txt],
    and the archive URL. *)
Example upload_hello_world :
  ∃ w',
    upload_file env_ok txt_file world0
    = (Ok {| status_code := 200;
             content :=
               {| message := "File uploaded and processed successfully";
                  up_filename := "hello.txt";
                  documents_processed := 1; chunks_created := 1;
                  file_type := ".txt";
                  s3_url := Some "https://caseforai-bucket.s3.amazonaws.com/documents/2025/03/07/3f2b8c1e_hello.txt";
                  warning := None; s3_error := None |} |}, w')
    ∧ tmpfs w' = ∅ ∧ length (vindex w') = 1%nat ∧ length (archive w') = 1%nat.
Proof. eexists. split; [vm_compute; reflexivity|]. repeat split. Qed.

(** ** The monad and the trace *)

Lemma tick_0 w : tick 0 w = w.
Proof. by destruct w. Qed.

Lemma tick_tick n m w : tick n (tick m w) = tick (n + m) w.
Proof. destruct w; unfold tick; simpl; f_equal; lia. Qed.

(** The metadata loop never raises: it stamps every document and reads the
    clock once per document. *)
Lemma mapM_add_metadata env fname ext docs w :
  mapM (add_metadata env fname ext) docs w
  = (Ok (stamped env fname ext (clock w) docs), tick (length docs) w).
Proof.
  revert w. induction docs as [|d docs IH]; intros w.
  - simpl. by rewrite tick_0.
  - cbn [mapM stamped length]. unfold mbind, M_bind, bind at 1.
    unfold add_metadata at 1. unfold mbind, M_bind, bind at 1.
    cbn [datetime_now]. unfold mret, M_ret, ret at 1. unfold bind at 1.
    rewrite IH. unfold ret. rewrite tick_tick. simpl. do 3 f_equal. lia.
Qed.


Lemma app_nil_inv {A} (l t : list A) : l = l ++ t → [] = t.
Proof. intros H. apply (app_inv_head l). by rewrite app_nil_r. Qed.

(** Symbolic execution of a handler run [H : handler ... w = (r, w')]: one
    case per outcome of each collaborator call, in program order. *)
Ltac red_in H :=
  cbv beta iota zeta in H;
  cbn [tmpfs vindex archive calls clock rng log set_tmpfs set_vindex
       set_archive tick draw] in H.

Ltac step H :=
  lazymatch type of H with
  | context [decide (?x ∈ readers_keys)] => destruct (decide (x ∈ readers_keys))
  | context [mkstemp ?e ?a ?b] => destruct (mkstemp e a b) eqn:?
  | context [read_fault ?e ?a] => destruct (read_fault e a) eqn:?
  | context [write_fault ?e ?a ?b] => destruct (write_fault e a b) eqn:?
  | context [readers_get ?a ?b] => destruct (readers_get a b) eqn:?
  | context [load_data ?e ?a ?b ?c] => destruct (load_data e a b c) eqn:?
  | context [mapM (add_metadata _ _ _) _ _] => rewrite mapM_add_metadata in H
  | context [get_nodes_from_documents ?e ?a ?b ?c] =>
      destruct (get_nodes_from_documents e a b c) eqn:?
  | context [insert_fault ?e ?a ?b] =>
      destruct (insert_fault e a b) as [[? ?]|] eqn:?
  | context [describe_index_stats ?e ?a] =>
      destruct (describe_index_stats e a) eqn:?
  | context [put_object_fault ?e ?a ?b] =>
      destruct (put_object_fault e a b) eqn:?
  | context [<[?p:=_]> _ !! ?p] => rewrite lookup_insert_eq in H
  end; red_in H.

Ltac run_in H :=
  unfold upload_file, process_file, upload_file_to_s3, list_chunks,
    try_except, try_finally, mbind, M_bind, bind, mret, M_ret, ret, raise,
    NamedTemporaryFile, file_read, tmp_write, os_unlink, reader_load_data,
    node_parser_get_nodes, insert_nodes, index_stats, put_object,
    datetime_now, uuid4 in H;
  red_in H; repeat step H; simplify_eq.

(** From [calls w' = calls w ++ tr] to the calls [tr] of the run. *)
Ltac trace_inv Htr :=
  cbn in Htr; rewrite <- ?app_assoc in Htr;
  first [apply app_inv_head in Htr | apply app_nil_inv in Htr];
  cbn in Htr; subst.

(** Cases of [Hin : c ∈ [c1; ...; cn]]. *)
Ltac mem_inv Hin :=
  repeat (apply elem_of_cons in Hin as [Hin|Hin]; [try discriminate|]);
  try (apply elem_of_nil in Hin; contradiction).

(** ** Upload: validation *)

(** A file whose lowercased extension is not a key of [readers]: the
    [HTTPException(400)] raised by the validation is caught by the
    handler's own [except Exception] and raised again as a 500; nothing
    else happens. *)
Lemma unsupported_extension_run env file w :
  PyStr.lower (Path.suffix (filename file)) ∉ readers_keys →
  upload_file env file w
  = (Raise (HTTPException 500
              ("Error processing file: " +:+
               str_exn (HTTPException 400
                          ("Unsupported file type. Supported: "
                           +:+ PyStr.repr_list readers_keys)))), w).
Proof.
  intros Hext. unfold upload_file, try_except, mbind, M_bind, bind.
  destruct (decide _) as [Hin|_]; [contradiction|]. reflexivity.
Qed.

(** C1 (code bug): the upload of [malware.exe] is answered with status 500,
    not 400; the detail names the supported extensions and the stores and
    the trace of collaborator calls are untouched. *)
Theorem C1_unsupported_extension_answers_500 (env : Env) (w : World) :
  upload_file env exe_file w
  = (Raise (HTTPException 500
       "Error processing file: 400: Unsupported file type. Supported: ['.pdf', '.docx', '.txt', '.md', '.xlsx']"),
     w)
  ∧ http_status status_code (upload_file env exe_file w).1 = 500.
Proof.
  rewrite unsupported_extension_run; [split; reflexivity|].
  vm_compute. intros H. mem_inv H.
Qed.

(** ** Upload: indexing and archival *)

(** C3: when the call of [index.insert_nodes] raises, the request is
    answered with status 500, the archive is unchanged and no
    [put_object] call is made. *)
Theorem C3_index_failure_aborts_before_archive
    (env : Env) (file : UploadFile) (w w' : World) (r : Outcome JSONResponse)
    (tr : list (Call * bool)) (nodes : list Node) :
  upload_file env file w = (r, w') →
  calls w' = calls w ++ tr →
  (CallInsertNodes nodes, false) ∈ tr →
  http_status status_code r = 500
  ∧ archive w' = archive w
  ∧ ∀ o b, (CallPutObject o, b) ∉ tr.
Proof.
  intros H Htr Hin. run_in H; trace_inv Htr; mem_inv Hin.
  split; [reflexivity|]. split; [reflexivity|].
  intros o b Hput. mem_inv Hput.
Qed.

Lemma C3_witness :
  http_status status_code (upload_file env_index_down txt_file world0).1 = 500
  ∧ archive (upload_file env_index_down txt_file world0).2 = [].
Proof.
  pose proof (C3_index_failure_aborts_before_archive
                env_index_down txt_file world0
                (upload_file env_index_down txt_file world0).2
                (upload_file env_index_down txt_file world0).1
                (calls (upload_file env_index_down txt_file world0).2)
                (hd [] (omap (fun c => match c.1 with CallInsertNodes n => Some n | _ => None end)
                   (calls (upload_file env_index_down txt_file world0).2)))) as H.
  destruct H as (H1 & H2 & _).
  - apply surjective_pairing.
  - reflexivity.
  - vm_compute. repeat constructor.
  - split; [exact H1 | exact H2].
Defined.

(** A failed archive write, in general: the request is still answered with
    status 200, the counts of the documents parsed and the nodes inserted,
    and a null [s3_url]; the warning and the error detail are present
    exactly when the text of the exception is not empty. *)
Lemma archive_failure_run
    (env : Env) (file : UploadFile) (w w' : World) (r : Outcome JSONResponse)
    (tr : list (Call * bool)) (o : S3Object) :
  upload_file env file w = (r, w') →
  calls w' = calls w ++ tr →
  (CallPutObject o, false) ∈ tr →
  ∃ resp e docs nodes,
    r = Ok resp ∧ status_code resp = 200
    ∧ put_object_fault env o (archive w) = Some e
    ∧ archive w' = archive w
    ∧ (CallGetNodes docs, true) ∈ tr ∧ (CallInsertNodes nodes, true) ∈ tr
    ∧ vindex w' = vindex w ++ nodes
    ∧ documents_processed (content resp) = length docs
    ∧ chunks_created (content resp) = length nodes
    ∧ s3_url (content resp) = None
    ∧ (str_exn e ≠ EmptyString →
       warning (content resp)
       = Some ("Document processed successfully but S3 upload failed: "
               +:+ str_exn e)
       ∧ s3_error (content resp) = Some (str_exn e))
    ∧ (str_exn e = EmptyString →
       warning (content resp) = None ∧ s3_error (content resp) = None).
Proof.
  intros H Htr Hin. run_in H; trace_inv Htr; mem_inv Hin. simplify_eq.
  eexists _, _, _, _. split; [reflexivity|]. cbn [status_code content].
  split; [reflexivity|]. split; [eassumption|]. split; [reflexivity|].
  split; [repeat constructor|]. split; [repeat constructor|].
  split; [reflexivity|]. split; [reflexivity|]. split; [reflexivity|].
  split; [reflexivity|].
  cbn [warning s3_error]. split; intros He; destruct (decide _); done.
Qed.

(** C4 (code bug): [put_object] raises an exception whose text is empty;
    the upload is answered with status 200 and a null [s3_url], but with
    neither [warning] nor [s3_error]. *)
Theorem C4_archive_failure_with_empty_text_unreported :
  ∃ resp w' o,
    upload_file (env_archive_down EmptyString) txt_file world0 = (Ok resp, w')
    ∧ (CallPutObject o, false) ∈ calls w'
    ∧ archive w' = []
    ∧ status_code resp = 200
    ∧ documents_processed (content resp) = 1%nat
    ∧ chunks_created (content resp) = 1%nat
    ∧ s3_url (content resp) = None
    ∧ warning (content resp) = None
    ∧ s3_error (content resp) = None.
Proof.
  eexists _, _, _. split; [vm_compute; reflexivity|].
  split; [repeat constructor|]. repeat split.
Qed.

(** ** Upload: the temporary file *)


(** A path that leaves the [with] block by an exception never reaches the
    [try ... finally]: the file created on entry stays. *)
Lemma tmp_file_left_when_write_fails
    (env : Env) (file : UploadFile) (w w' : World) (r : Outcome JSONResponse)
    (tr : list (Call * bool)) (p : string) :
  upload_file env file w = (r, w') →
  calls w' = calls w ++ tr →
  (CallTmpWrite p, false) ∈ tr →
  http_status status_code r = 500
  ∧ tmpfs w' = <[p := []]> (tmpfs w)
  ∧ ∀ p' b, (CallUnlink p', b) ∉ tr.
Proof.
  intros H Htr Hin. run_in H; trace_inv Htr; mem_inv Hin; simplify_eq.
  split; [reflexivity|]. split; [reflexivity|].
  intros p' b Hu. mem_inv Hu.
Qed.

(** C7 (code bug): writing the uploaded bytes raises (the disk is full);
    the request is answered with status 500 and the temporary file, which
    did not exist before the request, exists after it: [os.unlink] is
    never called. *)
Theorem C7_temporary_file_left_when_write_fails :
  ∃ r w',
    upload_file env_disk_full txt_file world0 = (r, w')
    ∧ http_status status_code r = 500
    ∧ tmpfs world0 !! "/tmp/tmpk3x9.txt" = None
    ∧ tmpfs w' !! "/tmp/tmpk3x9.txt" = Some []
    ∧ ∀ p b, (CallUnlink p, b) ∉ calls w'.
Proof.
  eexists _, _. split; [vm_compute; reflexivity|].
  split; [reflexivity|]. split; [reflexivity|]. split; [reflexivity|].
  intros p b Hu. mem_inv Hu.
Qed.

(** ** Upload: metadata and file type *)

(** Every stamped document carries the three keys; its timestamp is one
    of the clock readings of the loop. *)
Lemma stamped_metadata env fname ext c docs d :
  d ∈ stamped env fname ext c docs →
  doc_metadata d !! "filename" = Some (JStr fname)
  ∧ doc_metadata d !! "file_type" = Some (JStr ext)
  ∧ ∃ t, (c ≤ t < c + length docs)%nat
         ∧ doc_metadata d !! "upload_timestamp"
           = Some (JStr (isoformat (now_at env t))).
Proof.
  revert c. induction docs as [|d0 docs IH]; intros c Hd; simpl in Hd.
  - by apply elem_of_nil in Hd.
  - apply elem_of_cons in Hd as [->|Hd].
    + cbn [doc_metadata]. split; [by simplify_map_eq|].
      split; [by simplify_map_eq|].
      exists c. split; [simpl; lia|]. by simplify_map_eq.
    + destruct (IH _ Hd) as (H1 & H2 & t & Ht & H3).
      split; [done|]. split; [done|]. exists t. split; [simpl; lia|done].
Qed.

(** C5: in a successful upload, the nodes appended to the vector index
    are those the response counts, and the metadata of each holds the file
    name, the lowercased extension and a timestamp read from the clock
    during the request, given that the node parser hands each node the
    metadata of its document. *)
Theorem C5_indexed_chunks_traceable
    (env : Env) (file : UploadFile) (w w' : World) (resp : JSONResponse) :
  parser_inherits_metadata env →
  upload_file env file w = (Ok resp, w') →
  ∃ nodes,
    vindex w' = vindex w ++ nodes
    ∧ (CallInsertNodes nodes, true) ∈ calls w'
    ∧ chunks_created (content resp) = length nodes
    ∧ ∀ n, n ∈ nodes →
           traceable env file (clock w) (clock w') (node_metadata n).
Proof.
  intros Hparser H. run_in H.
  all: eexists; (split; [reflexivity|]).
  all: split; [cbn; repeat (apply elem_of_app;
              first [right; by apply list_elem_of_singleton | left])|].
  all: split; [reflexivity|].
  all: intros n Hn.
  all: match goal with
       | Hp : get_nodes_from_documents _ _ _ _ = Ok _ |- _ =>
           destruct (Hparser _ _ Hp n Hn) as (d & Hd & ->)
       end.
  all: apply stamped_metadata in Hd as (H1 & H2 & t & Ht & H3).
  all: split; [done|]; split; [done|]; exists t; split; [cbn; lia|done].
Qed.

Lemma env_ok_parser_inherits : parser_inherits_metadata env_ok.
Proof.
  intros docs nodes Hp n Hn. cbn in Hp. injection Hp as <-.
  apply list_elem_of_fmap in Hn as (d & -> & Hd). by exists d.
Qed.

Lemma C5_witness :
  ∃ resp nodes,
    (upload_file env_ok txt_file world0).1 = Ok resp
    ∧ vindex (upload_file env_ok txt_file world0).2 = nodes
    ∧ ∀ n, n ∈ nodes → node_metadata n !! "filename" = Some (JStr "hello.txt").
Proof.
  destruct (upload_file env_ok txt_file world0) as [r w'] eqn:Hrun.
  destruct r as [resp|e]; [|vm_compute in Hrun; discriminate].
  destruct (C5_indexed_chunks_traceable env_ok txt_file world0 w' resp
              env_ok_parser_inherits Hrun) as (nodes & Hix & _ & _ & Hmd).
  exists resp, nodes. split; [reflexivity|]. split; [exact Hix|].
  intros n Hn. exact (proj1 (Hmd n Hn)).
Defined.

Lemma lower_ascii_idem c : PyStr.lower_ascii (PyStr.lower_ascii c) = PyStr.lower_ascii c.
Proof. by destruct c as [[] [] [] [] [] [] [] []]. Qed.

Lemma lower_idem s : PyStr.lower (PyStr.lower s) = PyStr.lower s.
Proof. induction s as [|c s IH]; simpl; [done|]. by rewrite lower_ascii_idem, IH. Qed.

(** C9: the extension is lowercased before the lookup in [readers]: a
    request passes validation (it goes on to create the temporary file)
    exactly when the lowercased extension is a key; the [file_type] of a
    response and of every document handed to the node parser is that
    lowercased extension, which lowercasing leaves unchanged; for
    [REPORT.PDF] it is [.pdf], a key. *)
Theorem C9_extension_lowercased
    (env : Env) (file : UploadFile) (w w' : World) (r : Outcome JSONResponse)
    (tr : list (Call * bool)) :
  upload_file env file w = (r, w') →
  calls w' = calls w ++ tr →
  let ext := PyStr.lower (Path.suffix (filename file)) in
  (ext ∈ readers_keys ↔ ∃ b, head tr = Some (CallMkstemp ext, b))
  ∧ (∀ resp, r = Ok resp → file_type (content resp) = ext)
  ∧ (∀ docs b d, (CallGetNodes docs, b) ∈ tr → d ∈ docs →
                 doc_metadata d !! "file_type" = Some (JStr ext))
  ∧ PyStr.lower ext = ext
  ∧ (filename file = "REPORT.PDF" → ext = ".pdf" ∧ ext ∈ readers_keys).
Proof.
  intros H Htr ext.
  assert (Hrep : filename file = "REPORT.PDF" → ext = ".pdf" ∧ ext ∈ readers_keys).
  { intros Hf. subst ext. rewrite Hf. split; [reflexivity|].
    vm_compute. repeat constructor. }
  assert (Hidem : PyStr.lower ext = ext) by apply lower_idem.
  run_in H; trace_inv Htr.
  all: split;
    [split; [intros Hk; first [contradiction | eexists; reflexivity]
            |intros [b Hb]; first [discriminate | assumption]]|].
  all: split; [intros resp Hr; by simplify_eq|].
  all: split; [|done].
  all: intros docs b d Hin Hd; mem_inv Hin; simplify_eq.
  all: by apply stamped_metadata in Hd as (_ & ? & _).
Qed.

Lemma C9_witness :
  ∃ resp, (upload_file env_ok report_file world0).1 = Ok resp
          ∧ file_type (content resp) = ".pdf".
Proof.
  destruct (C9_extension_lowercased env_ok report_file world0
              (upload_file env_ok report_file world0).2
              (upload_file env_ok report_file world0).1
              (calls (upload_file env_ok report_file world0).2))
    as (_ & Hft & _).
  - apply surjective_pairing.
  - reflexivity.
  - eexists. split; [vm_compute; reflexivity|]. 
    rewrite (Hft _ ltac:(vm_compute; reflexivity)). reflexivity.
Defined.

(** ** Listing *)

(** C10: for two limits that pass validation, [GET /chunks] gives the same
    response and leaves the same state. *)
Theorem C10_chunks_independent_of_limit
    (env : Env) (l1 l2 : Z) (w : World) :
  1 ≤ l1 ≤ 1000 → 1 ≤ l2 ≤ 1000 →
  get_chunks env (Some l1) w = get_chunks env (Some l2) w.
Proof.
  intros H1 H2. unfold get_chunks, Query_int.
  replace ((1 <=? l1) && (l1 <=? 1000)) with true
    by (symmetry; apply andb_true_iff; lia).
  replace ((1 <=? l2) && (l2 <=? 1000)) with true
    by (symmetry; apply andb_true_iff; lia).
  reflexivity.
Qed.

Lemma C10_witness :
  get_chunks env_ok (Some 1) world1 = get_chunks env_ok (Some 1000) world1.
Proof. apply C10_chunks_independent_of_limit; lia. Defined.

(** ** Archive keys *)

Lemma str_app_cons x (a b : string) : String x a +:+ b = String x (a +:+ b).
Proof. reflexivity. Qed.

Lemma str_app_assoc (a b c : string) : (a +:+ b) +:+ c = a +:+ b +:+ c.
Proof. induction a as [|x a IH]; [done|]. by rewrite !str_app_cons, IH. Qed.

Lemma length_digits_go b n x acc :
  String.length (PyStr.digits_go b n x acc) = (n + String.length acc)%nat.
Proof.
  revert x acc. induction n as [|n IH]; intros x acc; simpl; [done|].
  rewrite IH. simpl. lia.
Qed.

Lemma length_hex n x : String.length (PyStr.hex n x) = n.
Proof. unfold PyStr.hex. rewrite length_digits_go. simpl. lia. Qed.

Lemma str_length_take n s :
  String.length (PyStr.take n s) = Nat.min n (String.length s).
Proof.
  revert s. induction n as [|n IH]; intros [|c s]; simpl; try done.
  by rewrite IH.
Qed.

Lemma take_app_length a b : PyStr.take (String.length a) (a +:+ b) = a.
Proof.
  induction a as [|c a IH]; [by destruct b|].
  rewrite str_app_cons. simpl. by rewrite IH.
Qed.

(** A number below [10^k] has at most [k] digits. *)
Lemma ndigits_go_le fuel k x :
  (x < 10 ^ N.of_nat (S k))%N → (PyStr.ndigits_go fuel x ≤ S k)%nat.
Proof.
  revert k x. induction fuel as [|fuel IH]; intros k x Hx; simpl; [lia|].
  destruct (N.ltb_spec x 10) as [Hlt|Hge]; [lia|].
  destruct k as [|k].
  - change (10 ^ N.of_nat 1)%N with 10%N in Hx. lia.
  - apply le_n_S, IH.
    rewrite Nat2N.inj_succ, N.pow_succ_r' in Hx.
    apply N.Div0.div_lt_upper_bound. lia.
Qed.

Lemma length_zpad k x :
  (x < 10 ^ N.of_nat (S k))%N → String.length (PyStr.zpad (S k) x) = S k.
Proof.
  intros Hx. unfold PyStr.zpad. rewrite length_digits_go. simpl String.length.
  pose proof (ndigits_go_le (N.size_nat x) k x Hx). unfold PyStr.ndigits. lia.
Qed.

(** The first eight characters of [str(u)] are the first eight hex digits. *)
Lemma unique_id_hex u :
  PyStr.take 8 (str_uuid u) = PyStr.take 8 (PyStr.hex 32 u)
  ∧ String.length (PyStr.take 8 (str_uuid u)) = 8%nat.
Proof.
  assert (Hl : String.length (PyStr.take 8 (PyStr.hex 32 u)) = 8%nat)
    by (rewrite str_length_take, length_hex; reflexivity).
  unfold str_uuid. cbv zeta.
  rewrite <- Hl at 1. rewrite take_app_length. by split.
Qed.

(** C8: a successful [upload_file_to_s3] appends one object to the
    archive; its key is [documents/YYYY/MM/DD/], the first eight characters
    of a fresh UUID, an underscore and the file name; its metadata holds
    the file name and a timestamp read from the clock; the URL returned
    ends with the key. *)
Theorem C8_archive_key_and_metadata
    (env : Env) (data : list Byte.byte) (fname ctype url : string)
    (w w' : World) :
  four_digit_date (now_at env (clock w)) →
  upload_file_to_s3 env data fname ctype w = (Ok url, w') →
  let d := now_at env (clock w) in
  let u := uuid4_at env (rng w) in
  ∃ o yyyy mm dd unique_id,
    archive w' = archive w ++ [o]
    ∧ Key o = "documents/" +:+ yyyy +:+ "/" +:+ mm +:+ "/" +:+ dd +:+ "/"
              +:+ unique_id +:+ "_" +:+ fname
    ∧ yyyy = PyStr.zpad 4 (year d) ∧ String.length yyyy = 4%nat
    ∧ mm = PyStr.zpad 2 (month d) ∧ String.length mm = 2%nat
    ∧ dd = PyStr.zpad 2 (day d) ∧ String.length dd = 2%nat
    ∧ unique_id = PyStr.take 8 (str_uuid u)
    ∧ String.length unique_id = 8%nat
    ∧ Metadata o !! "original_filename" = Some fname
    ∧ Metadata o !! "upload_timestamp"
      = Some (isoformat (now_at env (S (clock w))))
    ∧ Body o = data ∧ ContentType o = ctype ∧ Bucket o = S3_BUCKET_NAME env
    ∧ url = "https://" +:+ S3_BUCKET_NAME env +:+ ".s3.amazonaws.com/" +:+ Key o.
Proof.
  intros (Hy & Hm & Hd) H d u. run_in H.
  eexists _, (PyStr.zpad 4 (year d)), (PyStr.zpad 2 (month d)),
    (PyStr.zpad 2 (day d)), (PyStr.take 8 (str_uuid u)).
  split; [reflexivity|].
  cbn [Key Metadata Body ContentType Bucket].
  split.
  { unfold s3_key_of, strftime_Ymd. rewrite !str_app_assoc. reflexivity. }
  subst d u.
  split; [reflexivity|]. split; [apply length_zpad; cbn; lia|].
  split; [reflexivity|]. split; [apply length_zpad; cbn; lia|].
  split; [reflexivity|]. split; [apply length_zpad; cbn; lia|].
  split; [reflexivity|]. split; [apply unique_id_hex|].
  split; [by simplify_map_eq|]. split; [by simplify_map_eq|].
  repeat split.
Qed.

Lemma C8_witness :
  ∃ o, archive (upload_file_to_s3 env_ok [] "hello.txt" "text/plain" world0).2 = [o]
       ∧ Key o = "documents/2025/03/07/3f2b8c1e_hello.txt".
Proof.
  destruct (C8_archive_key_and_metadata env_ok [] "hello.txt" "text/plain"
              "https://caseforai-bucket.s3.amazonaws.com/documents/2025/03/07/3f2b8c1e_hello.txt"
              world0
              (upload_file_to_s3 env_ok [] "hello.txt" "text/plain" world0).2)
    as (o & yyyy & mm & dd & uid & Ha & Hk & -> & _ & -> & _ & -> & _ & -> & _).
  - unfold four_digit_date. cbn. lia.
  - vm_compute. reflexivity.
  - exists o. split; [exact Ha|]. rewrite Hk. vm_compute. reflexivity.
Defined.

(** ** Query *)

(** C6 (as stated, refuted): a bound of 100 is not clamped to 50; the
    request is refused by the parameter validation, while the handler
    called with the clamped bound answers. *)
Lemma C6_counterexample :
  (get_query retrieve_first (Some "hello") (Some 100) world1).1
  = Raise (RequestValidationError "limit")
  ∧ ¬ query_clamps_limit retrieve_first "hello" 100 world1.
Proof.
  split; [reflexivity|]. unfold query_clamps_limit. vm_compute. discriminate.
Qed.

(** C6 (amended): a bound outside 1..50 fails validation and nothing is
    retrieved.  With the bound [k] absent (then 10) or within 1..50, the
    request is the handler's call with [k]; the handler answers exactly
    when the retriever does, with the query, one result per retrieved
    node in the retriever's order, carrying the node's id, text, score and
    metadata, and [total_results] their number; given a retriever that
    returns at most [k] nodes in descending score, there are at most [k]
    results and they are in descending score. *)
Theorem C6_query_results
    {Score : Type} (ge : option Score → option Score → Prop)
    (retrieve : Retriever Score) (q : string) (limit : option Z) (w : World) :
  retriever_top_k ge retrieve →
  (∀ v, limit = Some v → v < 1 ∨ 50 < v →
        get_query retrieve (Some q) limit w
        = (Raise (RequestValidationError "limit"), w))
  ∧ (∀ k, (limit = None ∧ k = 10) ∨ (limit = Some k ∧ 1 ≤ k ≤ 50) →
          get_query retrieve (Some q) limit w = query_documents retrieve q k w
          ∧ (∀ e, retrieve (vindex w) k q = Raise e →
                  ∃ d, (query_documents retrieve q k w).1
                       = Raise (HTTPException 500 d))
          ∧ (∀ nodes, retrieve (vindex w) k q = Ok nodes →
               ∃ resp,
                 (query_documents retrieve q k w).1 = Ok resp
                 ∧ vindex (query_documents retrieve q k w).2 = vindex w
                 ∧ query resp = q
                 ∧ results resp = map result_of nodes
                 ∧ Forall2 (fun res n =>
                              qr_id res = node_id (nws_node n)
                              ∧ qr_text res = node_text (nws_node n)
                              ∧ qr_score res = nws_score n
                              ∧ qr_metadata res = node_metadata (nws_node n))
                           (results resp) nodes
                 ∧ total_results resp = length (results resp)
                 ∧ Z.of_nat (length (results resp)) ≤ k
                 ∧ StronglySorted (fun a b => ge (qr_score a) (qr_score b))
                                  (results resp))).
Proof.
  intros Htop. split.
  - intros v -> Hv. unfold get_query, Query_required, Query_int.
    replace ((1 <=? v) && (v <=? 50)) with false; [reflexivity|].
    symmetry. apply andb_false_iff. lia.
  - intros k Hk. split; [|split].
    + unfold get_query, Query_required, Query_int.
      destruct Hk as [[-> ->]|[-> Hk]]; [reflexivity|].
      replace ((1 <=? k) && (k <=? 50)) with true; [reflexivity|].
      symmetry. apply andb_true_iff. lia.
    + intros e He. unfold query_documents, try_except, mbind, M_bind, bind,
        retriever_retrieve. rewrite He. eexists. reflexivity.
    + intros nodes Hn.
      assert (Hpos : 1 ≤ k) by (destruct Hk as [[_ ->]|[_ ?]]; lia).
      destruct (Htop _ _ _ _ Hpos Hn) as [Hlen Hsorted].
      unfold query_documents, try_except, mbind, M_bind, bind,
        retriever_retrieve. rewrite Hn. eexists. split; [reflexivity|].
      cbn [snd query results total_results vindex log].
      split; [reflexivity|]. split; [reflexivity|]. split; [reflexivity|].
      split.
      { clear. induction nodes; constructor; auto. }
      split; [reflexivity|]. split; [by rewrite length_map|].
      eapply (StronglySorted_fmap result_of); [|exact Hsorted]. auto.
Qed.

Lemma scored_length s l : length (scored s l) = length l.
Proof. revert s. induction l; intros; simpl; auto. Qed.

Lemma scored_scores s l n :
  n ∈ scored s l → ∃ x, nws_score n = Some x ∧ x ≤ s.
Proof.
  revert s. induction l as [|a l IH]; intros s Hn; simpl in Hn.
  - by apply elem_of_nil in Hn.
  - apply elem_of_cons in Hn as [->|Hn]; [exists s; simpl; split; [done|lia]|].
    destruct (IH _ Hn) as (x & Hx & Hle). exists x. split; [done|lia].
Qed.

Lemma scored_sorted s l :
  StronglySorted (fun a b => score_ge (nws_score a) (nws_score b)) (scored s l).
Proof.
  revert s. induction l as [|a l IH]; intros s; simpl; constructor; [apply IH|].
  apply Forall_forall. intros n Hn.
  destruct (scored_scores _ _ _ Hn) as (x & -> & Hle). simpl. lia.
Qed.

Lemma retrieve_first_top_k : retriever_top_k score_ge retrieve_first.
Proof.
  intros idx k q nodes Hk Hr. unfold retrieve_first in Hr.
  injection Hr as <-. split; [|apply scored_sorted].
  rewrite scored_length, length_take. lia.
Qed.

Lemma C6_witness :
  ∃ resp, (get_query retrieve_first (Some "hello") (Some 5) world1).1 = Ok resp
          ∧ Z.of_nat (length (results resp)) ≤ 5
          ∧ total_results resp = 1%nat.
Proof.
  destruct (C6_query_results score_ge retrieve_first "hello" (Some 5) world1
              retrieve_first_top_k) as [_ H].
  assert (Hk : 1 ≤ 5 ≤ 50) by (split; discriminate).
  destruct (H 5 (or_intror (conj eq_refl Hk))) as (Heq & _ & Hok).
  destruct (Hok [ {| nws_node := hello_node; nws_score := Some 100 |} ] eq_refl)
    as (resp & Hr & _ & _ & Hres & _ & Htot & Hlen & _).
  exists resp. rewrite Heq. split; [exact Hr|]. split; [exact Hlen|].
  rewrite Htot, Hres. reflexivity.
Defined.

(** * Further properties of the handlers *)

(** ** Upload: answers and failures *)


(** X2: when the reader raises, the request is answered with status 500,
    the vector index and the archive are unchanged, the temporary file is
    deleted, and neither the node parser, nor the index, nor the archive
    is called. *)
Theorem extraction_failure_aborts
    (env : Env) (file : UploadFile) (w w' : World) (r : Outcome JSONResponse)
    (tr : list (Call * bool)) (rd : Reader) (p : string) :
  upload_file env file w = (r, w') →
  calls w' = calls w ++ tr →
  (CallLoadData rd p, false) ∈ tr →
  http_status status_code r = 500
  ∧ vindex w' = vindex w ∧ archive w' = archive w
  ∧ tmpfs w' = delete p (tmpfs w)
  ∧ (∀ docs b, (CallGetNodes docs, b) ∉ tr)
  ∧ (∀ nodes b, (CallInsertNodes nodes, b) ∉ tr)
  ∧ (∀ o b, (CallPutObject o, b) ∉ tr).
Proof.
  intros H Htr Hin. run_in H; trace_inv Htr; mem_inv Hin; simplify_eq.
  split; [reflexivity|]. split; [reflexivity|]. split; [reflexivity|].
  split; [by rewrite !delete_insert_eq|].
  split; [|split]; intros ? ? Hc; mem_inv Hc.
Qed.

Lemma extraction_failure_aborts_witness :
  http_status status_code (upload_file env_reader_fails txt_file world0).1 = 500
  ∧ vindex (upload_file env_reader_fails txt_file world0).2 = []
  ∧ tmpfs (upload_file env_reader_fails txt_file world0).2 = ∅.
Proof.
  destruct (extraction_failure_aborts env_reader_fails txt_file world0
              (upload_file env_reader_fails txt_file world0).2
              (upload_file env_reader_fails txt_file world0).1
              (calls (upload_file env_reader_fails txt_file world0).2)
              UnstructuredReader "/tmp/tmpk3x9.txt")
    as (H1 & H2 & _ & H3 & _).
  - apply surjective_pairing.
  - reflexivity.
  - vm_compute. repeat constructor.
  - split; [exact H1|]. split; [exact H2|]. rewrite H3. reflexivity.
Defined.

(** X3: when reading the index statistics after the insertion raises, the
    request is answered with status 500 although the nodes are already in
    the vector index; the archive is not written and the temporary file is
    deleted. *)
Theorem stats_failure_after_insertion
    (env : Env) (file : UploadFile) (w w' : World) (r : Outcome JSONResponse)
    (tr : list (Call * bool)) :
  upload_file env file w = (r, w') →
  calls w' = calls w ++ tr →
  (CallDescribeStats, false) ∈ tr →
  http_status status_code r = 500
  ∧ (∃ nodes, (CallInsertNodes nodes, true) ∈ tr
              ∧ vindex w' = vindex w ++ nodes)
  ∧ archive w' = archive w
  ∧ (∀ o b, (CallPutObject o, b) ∉ tr)
  ∧ (∃ p, (CallUnlink p, true) ∈ tr ∧ tmpfs w' = delete p (tmpfs w)).
Proof.
  intros H Htr Hin. run_in H; trace_inv Htr; mem_inv Hin; simplify_eq.
  split; [reflexivity|].
  split; [eexists; split; [repeat constructor|reflexivity]|].
  split; [reflexivity|].
  split; [intros ? ? Hc; mem_inv Hc|].
  eexists. split; [repeat constructor|by rewrite !delete_insert_eq].
Qed.

Lemma stats_failure_after_insertion_witness :
  http_status status_code (upload_file env_stats_down txt_file world0).1 = 500
  ∧ length (vindex (upload_file env_stats_down txt_file world0).2) = 1%nat
  ∧ archive (upload_file env_stats_down txt_file world0).2 = [].
Proof.
  destruct (stats_failure_after_insertion env_stats_down txt_file world0
              (upload_file env_stats_down txt_file world0).2
              (upload_file env_stats_down txt_file world0).1
              (calls (upload_file env_stats_down txt_file world0).2))
    as (H1 & _ & H3 & _).
  - apply surjective_pairing.
  - reflexivity.
  - vm_compute. repeat constructor.
  - split; [exact H1|]. split; [reflexivity|exact H3].
Defined.

(** X4: in a 200 response, [s3_url] tells what happened to the archive:
    either it is a URL and exactly one object was appended, holding the
    uploaded bytes under the content type of the upload (or
    [application/octet-stream] when none was declared), in the configured
    bucket, with the file name in its metadata and at the end of its key,
    and the response has no warning; or it is null and the archive is
    unchanged. *)
Theorem response_reflects_archive
    (env : Env) (file : UploadFile) (w w' : World) (resp : JSONResponse) :
  upload_file env file w = (Ok resp, w') →
  (∃ o pre,
      s3_url (content resp) = Some (s3_url_of env (Key o))
      ∧ archive w' = archive w ++ [o]
      ∧ Body o = body file
      ∧ ContentType o = content_type_or_default file
      ∧ Bucket o = S3_BUCKET_NAME env
      ∧ Key o = pre +:+ "_" +:+ filename file
      ∧ Metadata o !! "original_filename" = Some (filename file)
      ∧ warning (content resp) = None ∧ s3_error (content resp) = None)
  ∨ (s3_url (content resp) = None ∧ archive w' = archive w).
Proof.
  intros H. run_in H; [right; by split|].
  left.
  match goal with
  | Hput : put_object_fault _ ?o _ = None |- _ => exists o
  end.
  exists ("documents/" +:+ strftime_Ymd (now_at env (length a0 + clock w))
              +:+ "/" +:+ PyStr.take 8 (str_uuid (uuid4_at env (rng w)))).
  split; [reflexivity|]. split; [reflexivity|].
  cbn [Body ContentType Bucket Key Metadata content warning s3_error].
  split; [reflexivity|]. split; [reflexivity|]. split; [reflexivity|].
  split.
  { unfold s3_key_of. rewrite !str_app_assoc. reflexivity. }
  split; [by simplify_map_eq|]. by split.
Qed.

Lemma response_reflects_archive_witness :
  ∃ resp, (upload_file env_ok report_file world0).1 = Ok resp
          ∧ length (archive (upload_file env_ok report_file world0).2) = 1%nat
          ∧ s3_url (content resp) ≠ None.
Proof.
  destruct (upload_file env_ok report_file world0) as [r w'] eqn:Hrun.
  destruct r as [resp|e]; [|vm_compute in Hrun; discriminate].
  exists resp. split; [reflexivity|].
  destruct (response_reflects_archive env_ok report_file world0 w' resp Hrun)
    as [(o & pre & Hu & Ha & _)|[Hu Ha]].
  - cbn [snd]. rewrite Ha, Hu. split; [reflexivity|discriminate].
  - vm_compute in Hrun. injection Hrun as <- <-. discriminate.
Defined.

(** ** Upload: what the reader and the parser are given *)

(** X5: the reader that is run is the one registered in [readers] for the
    lowercased extension, and it is run on the path of the temporary file,
    which then holds exactly the uploaded bytes (no other path differs
    from the start of the request); the call returns exactly when the
    reader does. *)
Theorem reader_dispatch
    (env : Env) (file : UploadFile) (w w' : World) (r : Outcome JSONResponse)
    (tr : list (Call * bool)) (rd : Reader) (p : string) (b : bool) :
  upload_file env file w = (r, w') →
  calls w' = calls w ++ tr →
  (CallLoadData rd p, b) ∈ tr →
  let ext := PyStr.lower (Path.suffix (filename file)) in
  readers_get readers ext = Some rd
  ∧ mkstemp env ext (tmpfs w) = Ok p
  ∧ ∃ fs, fs !! p = Some (body file)
          ∧ (∀ p', p' ≠ p → fs !! p' = tmpfs w !! p')
          ∧ (b = true ↔ ∃ docs, load_data env rd p fs = Ok docs).
Proof.
  intros H Htr Hin ext. subst ext.
  run_in H; trace_inv Htr; mem_inv Hin; simplify_eq.
  all: split; [reflexivity|]; split; [reflexivity|].
  all: match goal with
       | Hl : load_data _ _ _ ?fs = _ |- _ => exists fs; rewrite Hl
       end.
  all: split; [apply lookup_insert_eq|].
  all: split; [intros p' Hp'; by rewrite !lookup_insert_ne|].
  all: split; [intros ?; try discriminate; eauto
              | intros [? ?]; try discriminate; reflexivity].
Qed.

Lemma reader_dispatch_witness :
  readers_get readers ".pdf" = Some PDFReader
  ∧ mkstemp env_ok ".pdf" ∅ = Ok "/tmp/tmpk3x9.pdf".
Proof.
  destruct (reader_dispatch env_ok report_file world0
              (upload_file env_ok report_file world0).2
              (upload_file env_ok report_file world0).1
              (calls (upload_file env_ok report_file world0).2)
              PDFReader "/tmp/tmpk3x9.pdf" true)
    as (H1 & H2 & _).
  - apply surjective_pairing.
  - reflexivity.
  - vm_compute. repeat constructor.
  - split; [exact H1 | exact H2].
Defined.




(** ** Upload: witnesses for the archive-failure and temporary-file lemmas *)

Lemma archive_failure_run_witness :
  ∃ resp,
    (upload_file (env_archive_down "AccessDenied") txt_file world0).1 = Ok resp
    ∧ s3_url (content resp) = None
    ∧ s3_error (content resp) = Some "AccessDenied".
Proof.
  destruct (upload_file (env_archive_down "AccessDenied") txt_file world0)
    as [r w'] eqn:Hrun.
  assert (Hcalls : ∃ o, (CallPutObject o, false) ∈ calls w').
  { vm_compute in Hrun. injection Hrun as <- <-.
    eexists. repeat constructor. }
  destruct Hcalls as (o & Hin).
  destruct (archive_failure_run (env_archive_down "AccessDenied") txt_file
              world0 w' r (calls w') o Hrun eq_refl Hin)
    as (resp & e & docs & nodes & -> & _ & He & _ & _ & _ & _ & _ & _ & Hu
        & Hwarn & _).
  exists resp. split; [reflexivity|]. split; [exact Hu|].
  cbn in He. injection He as <-. apply Hwarn. discriminate.
Defined.


(** ** The read-only handlers *)

Ltac step_ro H :=
  lazymatch type of H with
  | context [(?lo <=? ?v) && (?v <=? ?hi)] =>
      destruct ((lo <=? v) && (v <=? hi)) eqn:?
  | context [describe_index_stats ?e ?a] =>
      destruct (describe_index_stats e a) eqn:?
  | context [?st !! "namespaces"] => destruct (st !! "namespaces") as [[]|] eqn:?
  | context [negb ?x] => destruct (negb x) eqn:?
  | context [match ?x with EmptyString => _ | String _ _ => _ end] => destruct x
  | context [match ?x with [] => _ | _ :: _ => _ end] => destruct x
  | context [match ?f ?a ?b ?c with Ok _ => _ | Raise _ => _ end] =>
      destruct (f a b c) eqn:?
  end; cbv beta iota zeta in H; cbn [truthy] in H.

Ltac run_ro H :=
  unfold get_query, get_chunks, get_index_stats, query_documents, list_chunks,
    Query_required, Query_int, try_except, mbind, M_bind, bind, mret, M_ret,
    ret, raise, retriever_retrieve, index_stats in H;
  cbv beta iota zeta in H; repeat step_ro H; simplify_eq.

(** X7: [GET /query], [GET /chunks] and [GET /stats] never change the
    clock, the UUID source, the temporary files, the vector index or the
    archive, whatever their parameters and whatever the collaborators
    answer; each makes at most one collaborator call. *)
Theorem read_only_handlers
    {Score : Type} (env : Env) (retrieve : Retriever Score)
    (q : option string) (limit : option Z) (w : World) :
  let wq := (get_query retrieve q limit w).2 in
  let wc := (get_chunks env limit w).2 in
  let ws := (get_index_stats env w).2 in
  (same_stores w wq ∧ ∃ tr, calls wq = calls w ++ tr ∧ (length tr ≤ 1)%nat)
  ∧ (same_stores w wc ∧ ∃ tr, calls wc = calls w ++ tr ∧ (length tr ≤ 1)%nat)
  ∧ (same_stores w ws ∧ ∃ tr, calls ws = calls w ++ tr ∧ (length tr ≤ 1)%nat).
Proof.
  cbv zeta. split; [|split].
  - destruct (get_query retrieve q limit w) as [r w'] eqn:H.
    destruct q, limit; run_ro H.
    all: cbn; split; [by repeat split|].
    all: first [ exists []; split; [by rewrite app_nil_r | simpl; lia]
               | eexists; split; [reflexivity | simpl; lia] ].
  - destruct (get_chunks env limit w) as [r w'] eqn:H.
    destruct limit; run_ro H.
    all: cbn; split; [by repeat split|].
    all: first [ exists []; split; [by rewrite app_nil_r | simpl; lia]
               | eexists; split; [reflexivity | simpl; lia] ].
  - destruct (get_index_stats env w) as [r w'] eqn:H. run_ro H.
    all: cbn; split; [by repeat split|].
    all: first [ exists []; split; [by rewrite app_nil_r | simpl; lia]
               | eexists; split; [reflexivity | simpl; lia] ].
Qed.

(** X8: [GET /chunks]: a limit outside 1..1000 fails validation before the
    index is asked; otherwise the index statistics are read once, and the
    answer is the 500 error ["Error listing chunks: ..."] when that raises,
    else the three statistics, each replaced by its default (0, 0, the
    empty dict) when the key is missing. *)
Theorem chunks_answers (env : Env) (limit : option Z) (w : World) :
  (∀ v, limit = Some v → v < 1 ∨ 1000 < v →
        get_chunks env limit w = (Raise (RequestValidationError "limit"), w))
  ∧ ((limit = None ∨ ∃ v, limit = Some v ∧ 1 ≤ v ≤ 1000) →
     (∀ e, describe_index_stats env (vindex w) = Raise e →
           get_chunks env limit w
           = (Raise (HTTPException 500 ("Error listing chunks: " +:+ str_exn e)),
              log CallDescribeStats false w))
     ∧ (∀ st, describe_index_stats env (vindex w) = Ok st →
           ∃ resp,
             get_chunks env limit w = (Ok resp, log CallDescribeStats true w)
             ∧ total_vectors resp = default (JInt 0) (st !! "total_vector_count")
             ∧ index_fullness resp = default (JInt 0) (st !! "index_fullness")
             ∧ namespaces resp = default (JDict []) (st !! "namespaces")
             ∧ (st = ∅ →
                total_vectors resp = JInt 0 ∧ index_fullness resp = JInt 0
                ∧ namespaces resp = JDict []))).
Proof.
  split.
  - intros v -> Hv. unfold get_chunks, Query_int.
    replace ((1 <=? v) && (v <=? 1000)) with false; [reflexivity|].
    symmetry. apply andb_false_iff. lia.
  - intros Hl.
    assert (Hq : ∃ l, Query_int "limit" 100 1 1000 limit = Ok l).
    { destruct Hl as [->|(v & -> & Hv)]; [by eexists|].
      unfold Query_int.
      replace ((1 <=? v) && (v <=? 1000)) with true; [by eexists|].
      symmetry. apply andb_true_iff. lia. }
    destruct Hq as [l Hq]. unfold get_chunks. rewrite Hq.
    unfold list_chunks, try_except, mbind, M_bind, bind, index_stats.
    split.
    + intros e ->. reflexivity.
    + intros st ->. eexists. split; [reflexivity|].
      cbn [total_vectors index_fullness namespaces].
      split; [reflexivity|]. split; [reflexivity|]. split; [reflexivity|].
      intros ->. by rewrite !lookup_empty.
Qed.

Lemma chunks_answers_witness :
  ∃ resp w', get_chunks env_ok (Some 100) world1 = (Ok resp, w')
             ∧ total_vectors resp = JInt 1
             ∧ namespaces resp = JDict [].
Proof.
  destruct (chunks_answers env_ok (Some 100) world1) as [_ H].
  destruct H as [_ H]; [right; exists 100; split; [reflexivity|lia]|].
  destruct (H _ eq_refl) as (resp & Hr & Ht & _ & Hn & _).
  exists resp, (log CallDescribeStats true world1).
  split; [exact Hr|]. split; [rewrite Ht | rewrite Hn]; reflexivity.
Defined.

(** ** Statistics *)

Lemma dict_set_fresh k v items :
  k ∉ items.*1 → dict_set k v items = items ++ [(k, v)].
Proof.
  induction items as [|[k' v'] items IH]; intros Hk; simpl; [done|].
  rewrite fmap_cons, not_elem_of_cons in Hk. destruct Hk as [Hne Hk].
  destruct (decide (k' = k)); [by subst|]. by rewrite IH.
Qed.

Lemma serialize_namespaces_nodup items acc :
  NoDup (acc.*1 ++ items.*1) →
  serialize_namespaces items acc
  = acc ++ map (fun '(ns, st) =>
                  (ns, JDict [("vector_count", ns_vector_count st)])) items.
Proof.
  revert acc. induction items as [|[ns st] items IH]; intros acc Hnd.
  - by rewrite app_nil_r.
  - unfold serialize_namespaces in *. cbn [fold_left map].
    rewrite fmap_cons in Hnd. cbn [fst] in Hnd.
    rewrite dict_set_fresh.
    + rewrite IH; [by rewrite <- app_assoc|].
      rewrite fmap_app, <- app_assoc. exact Hnd.
    + apply NoDup_app in Hnd as (_ & Hdisj & _).
      intros Hin. apply (Hdisj _ Hin). constructor.
Qed.

(** X9: [GET /stats] with statistics that list namespaces (a non-empty
    dict, as a Python dict has it: no name twice): the response lists the
    same namespaces in the same order, each reduced to its [vector_count]
    (0 when the namespace entry has none), beside the three counters with
    their defaults. *)
Theorem stats_namespaces
    (env : Env) (w : World) (st : gmap string JValue)
    (items : list (string * JValue)) :
  describe_index_stats env (vindex w) = Ok st →
  st !! "namespaces" = Some (JDict items) →
  items ≠ [] →
  NoDup items.*1 →
  ∃ resp,
    (get_index_stats env w).1 = Ok resp
    ∧ index_name resp = "caseforai-embeddings"
    ∧ total_vector_count (stats resp)
      = default (JInt 0) (st !! "total_vector_count")
    ∧ ss_index_fullness (stats resp)
      = default (JFloat 0) (st !! "index_fullness")
    ∧ dimension (stats resp) = default (JInt 0) (st !! "dimension")
    ∧ ss_namespaces (stats resp)
      = Some (map (fun '(ns, s) =>
                     (ns, JDict [("vector_count", ns_vector_count s)])) items).
Proof.
  intros Hst Hns Hne Hnd.
  unfold get_index_stats, try_except, mbind, M_bind, bind, index_stats.
  rewrite Hst. cbv beta iota zeta. rewrite Hns.
  destruct items as [|it items]; [done|]. cbn [truthy].
  cbv beta iota zeta. unfold mret, M_ret, ret. cbv beta iota.
  eexists. split; [reflexivity|]. cbn [index_name stats total_vector_count
    ss_index_fullness dimension ss_namespaces].
  repeat (split; [reflexivity|]).
  f_equal. by rewrite serialize_namespaces_nodup.
Qed.

Lemma stats_namespaces_witness :
  ∃ resp,
    (get_index_stats env_namespaces world0).1 = Ok resp
    ∧ ss_namespaces (stats resp)
      = Some [ ("cases", JDict [("vector_count", JInt 7)]);
               ("drafts", JDict [("vector_count", JInt 0)]) ].
Proof.
  destruct (stats_namespaces env_namespaces world0
              (<["namespaces" :=
                   JDict [ ("cases", JDict [("vector_count", JInt 7)]);
                           ("drafts", JDict []) ]]>
                 (<["dimension" := JInt 768]> ∅))
              [ ("cases", JDict [("vector_count", JInt 7)]);
                ("drafts", JDict []) ])
    as (resp & Hr & _ & _ & _ & _ & Hn).
  - reflexivity.
  - reflexivity.
  - discriminate.
  - cbn. repeat (constructor; [intros Hin; mem_inv Hin|]). constructor.
  - exists resp. split; [exact Hr|]. rewrite Hn. reflexivity.
Defined.

(** X10: [GET /stats] leaves the [namespaces] key out of the response
    when the statistics have no namespaces, or a value that is false in
    Python (the empty dict, [None], 0, the empty string); it answers with a
    500 error ["Error getting stats: ..."] when the statistics cannot be
    read, and when the namespaces are a true value that is not a dict. *)
Theorem stats_without_namespaces (env : Env) (w : World) :
  (∀ e, describe_index_stats env (vindex w) = Raise e →
        (get_index_stats env w).1
        = Raise (HTTPException 500 ("Error getting stats: " +:+ str_exn e)))
  ∧ (∀ st, describe_index_stats env (vindex w) = Ok st →
       match st !! "namespaces" with
       | Some (JDict (_ :: _)) => True
       | Some v =>
           if truthy v
           then (get_index_stats env w).1
                = Raise (HTTPException 500
                           ("Error getting stats: '" +:+ type_name v
                            +:+ "' object has no attribute 'items'"))
           else ∃ resp, (get_index_stats env w).1 = Ok resp
                        ∧ ss_namespaces (stats resp) = None
       | None => ∃ resp, (get_index_stats env w).1 = Ok resp
                         ∧ ss_namespaces (stats resp) = None
       end).
Proof.
  split.
  - intros e He.
    unfold get_index_stats, try_except, mbind, M_bind, bind, index_stats.
    by rewrite He.
  - intros st Hst.
    unfold get_index_stats, try_except, mbind, M_bind, bind, index_stats.
    rewrite Hst. cbv beta iota zeta.
    destruct (st !! "namespaces") as [v|]; [|by eexists].
    destruct v as [|z|bits|s|items].
    + by eexists.
    + cbn [truthy]. destruct (negb (z =? 0)); [reflexivity|by eexists].
    + cbn [truthy]. destruct (negb _); [reflexivity|by eexists].
    + destruct s; [by eexists|reflexivity].
    + destruct items; [by eexists|done].
Qed.

(** ** Start-up checks *)

Lemma check_env_vars_ok environ vars :
  check_env_vars environ vars = Ok ()
  ↔ ∀ var, var ∈ vars → ∃ v, environ !! var = Some v ∧ v ≠ EmptyString.
Proof.
  induction vars as [|var vars IH]; simpl.
  - split; [intros _ ? Hin; by apply elem_of_nil in Hin|done].
  - destruct (environ !! var) as [v|] eqn:Hv.
    + destruct (decide (v = EmptyString)) as [->|Hne].
      * split; [done|]. intros H.
        destruct (H var) as (v' & Hv' & Hne'); [by left|]. congruence.
      * rewrite IH. split.
        -- intros H x Hx. apply elem_of_cons in Hx as [->|Hx]; eauto.
        -- intros H x Hx. apply H. by right.
    + split; [done|]. intros H.
      destruct (H var) as (v' & Hv' & _); [by left|]. congruence.
Qed.

(** X11: the start-up check of the environment passes exactly when each of
    the four required variables is set to a non-empty string. *)
Theorem validate_environment_ok_iff (environ : gmap string string) :
  validate_environment environ = Ok ()
  ↔ ∀ var, var ∈ required_env_vars →
           ∃ v, environ !! var = Some v ∧ v ≠ EmptyString.
Proof. apply check_env_vars_ok. Qed.

(** X12: when the start-up check fails, the error names the first
    variable, in the order of [required_env_vars], that is unset or empty;
    the variables before it are all set. *)
Theorem validate_environment_names_first_missing
    (environ : gmap string string) (e : Exn) :
  validate_environment environ = Raise e →
  ∃ before var after,
    required_env_vars = before ++ var :: after
    ∧ (∀ x, x ∈ before → ∃ v, environ !! x = Some v ∧ v ≠ EmptyString)
    ∧ (environ !! var = None ∨ environ !! var = Some EmptyString)
    ∧ e = PyError ("Missing required environment variable: " +:+ var).
Proof.
  unfold validate_environment. generalize required_env_vars as vars.
  induction vars as [|var vars IH]; simpl; [done|].
  destruct (environ !! var) as [v|] eqn:Hv.
  - destruct (decide (v = EmptyString)) as [->|Hne].
    + intros [= <-]. exists [], var, vars. split; [done|].
      split; [intros ? Hin; by apply elem_of_nil in Hin|]. split; [by right|done].
    + intros H. destruct (IH H) as (bf & x & af & -> & Hbf & Hx & ->).
      exists (var :: bf), x, af. split; [done|]. split; [|by split].
      intros y Hy. apply elem_of_cons in Hy as [->|Hy]; eauto.
  - intros [= <-]. exists [], var, vars. split; [done|].
    split; [intros ? Hin; by apply elem_of_nil in Hin|]. split; [by left|done].
Qed.

Lemma validate_environment_names_first_missing_witness :
  ∃ var, var ∈ required_env_vars
         ∧ (environ_empty_key !! var = None
            ∨ environ_empty_key !! var = Some EmptyString).
Proof.
  destruct (validate_environment_names_first_missing environ_empty_key
              (PyError "Missing required environment variable: GOOGLE_API_KEY"))
    as (bf & var & af & Hreq & _ & Hvar & _).
  - vm_compute. reflexivity.
  - exists var. split; [|exact Hvar].
    rewrite Hreq. apply elem_of_app. right. constructor.
Defined.


(** ** Archive writes *)

(** X14: when [put_object] raises, [upload_file_to_s3] raises the same
    exception; the archive is unchanged, the clock has been read twice and
    one UUID drawn, and [put_object] was the only collaborator called. *)
Theorem archive_write_failure_propagates
    (env : Env) (data : list Byte.byte) (fname ctype : string)
    (w w' : World) (e : Exn) :
  upload_file_to_s3 env data fname ctype w = (Raise e, w') →
  archive w' = archive w ∧ vindex w' = vindex w ∧ tmpfs w' = tmpfs w
  ∧ clock w' = (2 + clock w)%nat ∧ rng w' = S (rng w)
  ∧ ∃ o, put_object_fault env o (archive w) = Some e
         ∧ Body o = data ∧ ContentType o = ctype
         ∧ calls w' = calls w ++ [(CallPutObject o, false)].
Proof.
  intros H. run_in H. cbn.
  repeat (split; [reflexivity|]).
  eexists. split; [eassumption|]. by repeat split.
Qed.

Lemma archive_write_failure_propagates_witness :
  (upload_file_to_s3 (env_archive_down "AccessDenied") [] "hello.txt"
     "text/plain" world0).1 = Raise (PyError "AccessDenied")
  ∧ archive (upload_file_to_s3 (env_archive_down "AccessDenied") []
               "hello.txt" "text/plain" world0).2 = [].
Proof.
  destruct (archive_write_failure_propagates (env_archive_down "AccessDenied")
              [] "hello.txt" "text/plain" world0
              (upload_file_to_s3 (env_archive_down "AccessDenied") []
                 "hello.txt" "text/plain" world0).2
              (PyError "AccessDenied")) as (Ha & _).
  - vm_compute. reflexivity.
  - split; [reflexivity | exact Ha].
Defined.

Lemma str_app_inv_head (a x y : string) : a +:+ x = a +:+ y → x = y.
Proof.
  induction a as [|c a IH]; [done|]. rewrite !str_app_cons.
  intros [= H]. by apply IH.
Qed.

Lemma str_app_inj (a a' b b' : string) :
  String.length a = String.length a' → a +:+ b = a' +:+ b' → a = a' ∧ b = b'.
Proof.
  revert a'. induction a as [|c a IH]; intros [|c' a'] Hl H; try done.
  rewrite !str_app_cons in H. injection H as -> H. simpl in Hl.
  destruct (IH a' ltac:(lia) H) as [-> ->]. done.
Qed.

Lemma digits_go_acc b n x acc :
  PyStr.digits_go b n x acc = PyStr.digits_go b n x EmptyString +:+ acc.
Proof.
  revert x acc. induction n as [|n IH]; intros x acc; simpl; [done|].
  rewrite (IH _ (String _ acc)), (IH _ (String _ EmptyString)).
  by rewrite str_app_assoc.
Qed.

Lemma digits_go_split b m n x acc :
  PyStr.digits_go b (m + n) x acc
  = PyStr.digits_go b n (x / b ^ N.of_nat m)%N (PyStr.digits_go b m x acc).
Proof.
  revert x acc. induction m as [|m IH]; intros x acc.
  - simpl. by rewrite N.div_1_r.
  - cbn [Nat.add PyStr.digits_go]. rewrite IH.
    rewrite Nat2N.inj_succ, N.pow_succ_r', N.Div0.div_div. done.
Qed.

Lemma digit_char_inj d1 d2 :
  (d1 < 16)%N → (d2 < 16)%N →
  PyStr.digit_char d1 = PyStr.digit_char d2 → d1 = d2.
Proof.
  intros H1 H2 H. apply (f_equal N_of_ascii) in H. unfold PyStr.digit_char in H.
  destruct (N.ltb_spec d1 10), (N.ltb_spec d2 10);
    rewrite !N_ascii_embedding in H by lia; lia.
Qed.

Lemma hex_succ n x :
  PyStr.hex (S n) x
  = PyStr.hex n (x / 16)%N +:+ String (PyStr.digit_char (x mod 16)%N) EmptyString.
Proof. unfold PyStr.hex. simpl. apply digits_go_acc. Qed.

Lemma hex_inj n x y :
  PyStr.hex n x = PyStr.hex n y ↔ (x mod 16 ^ N.of_nat n = y mod 16 ^ N.of_nat n)%N.
Proof.
  revert x y. induction n as [|n IH]; intros x y.
  - simpl. rewrite !N.mod_1_r. done.
  - rewrite !hex_succ, Nat2N.inj_succ, N.pow_succ_r'.
    rewrite !(N.Div0.mod_mul_r _ 16). split.
    + intros H. apply str_app_inj in H as [H1 H2];
        [|by rewrite !length_hex].
      apply IH in H1. injection H2 as H2.
      apply digit_char_inj in H2; [|by apply N.mod_lt..].
      by rewrite H1, H2.
    + pose proof (N.mod_lt x 16 ltac:(done)) as Hx.
      pose proof (N.mod_lt y 16 ltac:(done)) as Hy.
      revert Hx Hy.
      generalize (x mod 16)%N ((x / 16) mod 16 ^ N.of_nat n)%N
        (y mod 16)%N ((y / 16) mod 16 ^ N.of_nat n)%N (IH (x / 16) (y / 16))%N.
      intros a A b B IH' Ha Hb H.
      assert (a = b) as -> by lia. assert (A = B) as HAB by lia.
      apply IH' in HAB. by rewrite HAB.
Qed.

(** X15: the eight characters taken from the UUID are the hexadecimal
    rendering of its 32 leading bits (of 128). *)
Theorem unique_id_leading_bits (u : N) :
  PyStr.take 8 (str_uuid u) = PyStr.hex 8 (u / 2 ^ 96)%N.
Proof.
  destruct (unique_id_hex u) as [-> _]. unfold PyStr.hex.
  change 32%nat with (24 + 8)%nat. rewrite digits_go_split, digits_go_acc.
  change (16 ^ N.of_nat 24)%N with (2 ^ 96)%N.
  rewrite <- (length_hex 8 (u / 2 ^ 96)) at 1. apply take_app_length.
Qed.

(** X16: two archive keys built for the same date and file name are equal
    exactly when the two UUIDs agree on their 32 leading bits: only
    these separate two uploads of one file name on one day. *)
Theorem archive_keys_equal_iff (timestamp fname : string) (u1 u2 : N) :
  (u1 < 2 ^ 128)%N → (u2 < 2 ^ 128)%N →
  s3_key_of timestamp (PyStr.take 8 (str_uuid u1)) fname
  = s3_key_of timestamp (PyStr.take 8 (str_uuid u2)) fname
  ↔ (u1 / 2 ^ 96 = u2 / 2 ^ 96)%N.
Proof.
  intros H1 H2. unfold s3_key_of. rewrite !unique_id_leading_bits.
  assert (Hm : ∀ u, (u < 2 ^ 128)%N →
                    ((u / 2 ^ 96) mod 16 ^ N.of_nat 8 = u / 2 ^ 96)%N).
  { intros u Hu. apply N.mod_small.
    change (16 ^ N.of_nat 8)%N with (2 ^ 32)%N.
    apply N.Div0.div_lt_upper_bound.
    by change (2 ^ 96 * 2 ^ 32)%N with (2 ^ 128)%N. }
  split.
  - intros H. do 3 apply str_app_inv_head in H.
    apply str_app_inj in H as [H _]; [|by rewrite !length_hex].
    apply hex_inj in H. by rewrite !Hm in H.
  - by intros ->.
Qed.

Lemma archive_keys_equal_iff_witness :
  s3_key_of "2025/03/07" (PyStr.take 8 (str_uuid (uuid4_at env_ok 0))) "a.txt"
  = s3_key_of "2025/03/07" (PyStr.take 8 (str_uuid (uuid4_at env_ok 1))) "a.txt".
Proof.
  apply archive_keys_equal_iff; [reflexivity|reflexivity|].
  vm_compute. reflexivity.
Defined.

(** ** File names that pass validation *)

Lemma rfind_Some c s i :
  PyStr.rfind c s = Some i →
  ∃ t, PyStr.drop i s = String c t
       ∧ String.length s = (i + S (String.length t))%nat.
Proof.
  revert i. induction s as [|a s IH]; intros i H; simpl in H; [done|].
  destruct (PyStr.rfind c s) as [j|] eqn:Hj.
  - injection H as <-. destruct (IH j eq_refl) as (t & Ht & Hl).
    exists t. simpl. split; [done|lia].
  - destruct (Ascii.eqb_spec a c) as [->|]; [|done].
    injection H as <-. exists s. simpl. split; [done|lia].
Qed.

Lemma take_drop_str n s : PyStr.take n s +:+ PyStr.drop n s = s.
Proof.
  revert s. induction n as [|n IH]; intros [|c s]; simpl; try done.
  rewrite str_app_cons. by rewrite IH.
Qed.

Lemma lower_cons c s :
  PyStr.lower (String c s) = String (PyStr.lower_ascii c) (PyStr.lower s).
Proof. reflexivity. Qed.

(** X17: a file name passes the validation of [upload_file] only if its
    last path component is a non-empty stem, a dot, and an extension that
    is [pdf], [docx], [txt], [md] or [xlsx] up to case: a name that is
    only an extension (such as [.pdf]) or has none is refused. *)
Theorem accepted_file_names (fname : string) :
  PyStr.lower (Path.suffix fname) ∈ readers_keys →
  ∃ stem ext,
    Path.name fname = stem +:+ "." +:+ ext
    ∧ stem ≠ EmptyString
    ∧ PyStr.lower ext ∈ ["pdf"; "docx"; "txt"; "md"; "xlsx"].
Proof.
  unfold Path.suffix. cbv zeta. intros Hin.
  destruct (PyStr.rfind "."%char (Path.name fname)) as [i|] eqn:Hi;
    [|vm_compute in Hin; mem_inv Hin].
  destruct ((0 <? i)%nat && (i <? String.length (Path.name fname) - 1)%nat)
    eqn:Hb; [|vm_compute in Hin; mem_inv Hin].
  apply andb_true_iff in Hb as [Hpos _]. apply Nat.ltb_lt in Hpos.
  destruct (rfind_Some _ _ _ Hi) as (ext & Hd & Hl).
  exists (PyStr.take i (Path.name fname)), ext.
  split; [|split].
  - change ("." +:+ ext) with (String "."%char ext). rewrite <- Hd.
    symmetry. apply take_drop_str.
  - intros He. apply (f_equal String.length) in He.
    rewrite str_length_take in He. simpl in He. lia.
  - rewrite Hd, lower_cons in Hin. unfold readers_keys in Hin. cbn in Hin.
    mem_inv Hin; injection Hin as ->; repeat constructor.
Qed.

Lemma accepted_file_names_witness :
  ∃ stem ext, Path.name "docs/REPORT.PDF" = stem +:+ "." +:+ ext
              ∧ stem ≠ EmptyString.
Proof.
  destruct (accepted_file_names "docs/REPORT.PDF")
    as (stem & ext & Hn & Hs & _).
  - vm_compute. repeat constructor.
  - exists stem, ext. split; [exact Hn | exact Hs].
Defined.
